(** * shelyak_control: the K8056 relay driver and the spectrograph controller

    A shallow embedding of [spectrograph.py].

    - Python integers are unbounded: they are [Z], and [&] is [Z.land]
      (both use the infinite two's complement reading of negatives).
    - A call that can raise runs in a state-and-exception monad: the state
      it reached is kept when it raises, as in Python.
    - The serial line is write-only here; a driver carries the history of
      what it handed to [Serial.write] and to [time.sleep], oldest first.
      Opening the port and writing to it are taken to succeed.
    - A dict whose iteration order is observed is an association list in
      insertion order. *)

From Stdlib Require Import ZArith QArith List String Bool Lia.
Import ListNotations.

Local Open Scope Z_scope.

(** ** Exceptions and the state-and-exception monad *)

Inductive Exn : Type :=
| InvalidRelay                 (* Exception("invalid relay number") *)
| ValueError                   (* bytearray element out of range(256), negative sleep *)
| KeyError (key : string).     (* failed dict subscript *)

Inductive Res (A : Type) : Type :=
| Ok (a : A)
| Raise (e : Exn).

Arguments Ok {A} a.
Arguments Raise {A} e.

Definition M (S A : Type) : Type := S -> Res A * S.

Definition ret {S A : Type} (a : A) : M S A := fun s => (Ok a, s).

Definition raise {S A : Type} (e : Exn) : M S A := fun s => (Raise e, s).

Definition bind {S A B : Type} (m : M S A) (k : A -> M S B) : M S B :=
  fun s =>
    match m s with
    | (Ok a, s') => k a s'
    | (Raise e, s') => (Raise e, s')
    end.

Declare Scope py_scope.
Delimit Scope py_scope with py.
Notation "x <- m ;; k" := (bind m (fun x => k))
  (at level 61, m at next level, right associativity) : py_scope.
Notation "m ;; k" := (bind m (fun _ => k))
  (at level 61, right associativity) : py_scope.
Local Open Scope py_scope.

(** [for _ in range(n): body], stopping at the first exception. *)
Fixpoint for_range {S : Type} (n : nat) (body : M S unit) : M S unit :=
  match n with
  | O => ret tt
  | Datatypes.S n' => body ;; for_range n' body
  end.

(** [for x in xs: body(x)]. *)
Fixpoint for_each {S A : Type} (xs : list A) (body : A -> M S unit) : M S unit :=
  match xs with
  | [] => ret tt
  | x :: xs' => body x ;; for_each xs' body
  end.

(** [len(range(n))] for an integer [n]. *)
Definition range_len (n : Z) : nat := Z.to_nat n.

(** ** Dicts with string keys, in insertion order *)

Definition Dict (V : Type) : Type := list (string * V).

Fixpoint dict_get {V : Type} (d : Dict V) (k : string) : option V :=
  match d with
  | [] => None
  | (k', v) :: d' => if String.eqb k k' then Some v else dict_get d' k
  end.

Definition items {V : Type} (d : Dict V) : list (string * V) := d.

(** [d[k]] as a statement that may raise [KeyError]. *)
Definition subscript {S V : Type} (d : Dict V) (k : string) : M S V :=
  match dict_get d k with
  | Some v => ret v
  | None => raise (KeyError k)
  end.

(** ** Module constants *)

Definition PORTS : Dict Z :=
  [ ("Mirror"%string, 1); ("LED"%string, 2); ("ThAr"%string, 3); ("Tung"%string, 4) ].

Definition OFF_STATUS : Dict string :=
  [ ("value", "Off"); ("color", "warning") ]%string.

Definition ON_STATUS : Dict string :=
  [ ("value", "On"); ("color", "success") ]%string.

(** ** class K8056 *)

Module K8056.

(** What the driver did to the outside world. *)
Inductive Event : Type :=
| Open (device : string) (baud : Z)   (* Serial(device, baud) *)
| Write (data : list Z)               (* self._serial.write(data) *)
| Sleep (secs : Q).                   (* sleep(secs) *)

Record t : Type := mk {
  repeat : Z;
  wait : Q;
  trace : list Event
}.

Definition log (e : Event) : M t unit :=
  fun self => (Ok tt, mk (repeat self) (wait self) (trace self ++ [e])).

(** [bytearray(xs)]: every element must be in [range(256)]. *)
Definition is_byte (x : Z) : bool := (0 <=? x) && (x <? 256).

Definition bytearray (xs : list Z) : M t (list Z) :=
  if forallb is_byte xs then ret xs else raise ValueError.

Definition serial_write (data : list Z) : M t unit := log (Write data).

(** [time.sleep] refuses a negative length. *)
Definition sleep (secs : Q) : M t unit :=
  if Qle_bool 0 secs then log (Sleep secs) else raise ValueError.

Definition _process (instruction byte address : Z) : M t unit :=
  let cksum := Z.land (243 - instruction - byte - address) 255 in
  fun self =>
    for_range (range_len (repeat self + 1))
      (data <- bytearray [13; address; instruction; byte; cksum] ;;
       serial_write data ;;
       (fun self => sleep (wait self) self))
      self.

Definition valid_relay (relay : Z) : bool := (0 <? relay) && (relay <? 10).

Definition set (relay : Z) (address : Z) : M t unit :=
  if negb (valid_relay relay) then raise InvalidRelay
  else _process 83 (relay + 48) (Z.land address 255).

Definition clear (relay : Z) (address : Z) : M t unit :=
  if negb (valid_relay relay) then raise InvalidRelay
  else _process 67 (relay + 48) (Z.land address 255).

Definition toggle (relay : Z) (address : Z) : M t unit :=
  if negb (valid_relay relay) then raise InvalidRelay
  else _process 84 (relay + 48) (Z.land address 255).

Definition set_address (new : Z) (address : Z) : M t unit :=
  _process 65 (Z.land new 255) (Z.land address 255).

Definition send_byte (num : Z) (address : Z) : M t unit :=
  _process 66 (Z.land num 255) (Z.land address 255).

Definition emergency_stop : M t unit := _process 69 1 1.

Definition force_address : M t unit := _process 70 1 1.

Definition get_address : M t unit := _process 68 1 1.

(** [K8056(device, repeat, wait)]: opens the port and lets it settle. *)
Definition __init__ (device : string) (repeat : Z) (wait : Q) : t :=
  mk repeat wait [Open device 2400; Sleep (1 # 10)].

(** The default of the [address] parameter of every command. *)
Definition default_address : Z := 1.

End K8056.

(** ** The relay device as the controller sees it

    [Spectrograph] only ever calls [self.device.set(port)] and
    [self.device.clear(port)], leaving [address] to its default. *)

Class RelayDevice (D : Type) : Type := {
  dev_set : Z -> M D unit;
  dev_clear : Z -> M D unit
}.

#[global] Instance K8056_device : RelayDevice K8056.t := {
  dev_set relay := K8056.set relay K8056.default_address;
  dev_clear relay := K8056.clear relay K8056.default_address
}.

(** A device that also remembers which calls it received, in order, and
    otherwise behaves as the device it wraps. *)
Inductive Call : Type :=
| CallSet (relay : Z)
| CallClear (relay : Z).

Definition call_relay (c : Call) : Z :=
  match c with CallSet r => r | CallClear r => r end.

Record Logged (D : Type) : Type := mkLogged {
  inner : D;
  calls : list Call
}.

Arguments mkLogged {D} inner calls.
Arguments inner {D} l.
Arguments calls {D} l.

Definition logged {D : Type} (c : Call) (m : M D unit) : M (Logged D) unit :=
  fun l =>
    let (r, d') := m (inner l) in
    (r, mkLogged d' (calls l ++ [c])).

#[global] Instance Logged_device {D : Type} `{RelayDevice D} : RelayDevice (Logged D) := {
  dev_set relay := logged (CallSet relay) (dev_set relay);
  dev_clear relay := logged (CallClear relay) (dev_clear relay)
}.

(** ** class Spectrograph *)

Module Spectrograph.

Definition PortStatusMap : Type := Dict (Dict string).

Definition OBSERVING_MODES : Dict PortStatusMap :=
  [ ("object", [ ("Mirror", OFF_STATUS); ("LED", OFF_STATUS);
                 ("ThAr", OFF_STATUS); ("Tung", OFF_STATUS) ]);
    ("dark",   [ ("Mirror", ON_STATUS); ("LED", OFF_STATUS);
                 ("ThAr", OFF_STATUS); ("Tung", OFF_STATUS) ]);
    ("flat",   [ ("Mirror", ON_STATUS); ("LED", ON_STATUS);
                 ("ThAr", OFF_STATUS); ("Tung", OFF_STATUS) ]);
    ("thar",   [ ("Mirror", ON_STATUS); ("LED", OFF_STATUS);
                 ("ThAr", ON_STATUS); ("Tung", OFF_STATUS) ]) ]%string.

(** The class attribute [status_dictionary = OBSERVING_MODES["object"]]. *)
Definition initial_status_dictionary : PortStatusMap :=
  match dict_get OBSERVING_MODES "object" with
  | Some ports => ports
  | None => []
  end.

Section Controller.

(** [InstrumentId] is the type of [self.id], which the [Instrument] base
    class assigns; [ObsInstructions] is the payload of "prepare_observation". *)
Context {D : Type} `{RelayDevice D} {InstrumentId ObsInstructions : Type}.

(** The [data] of an [Instrument.sio.emit]. *)
Inductive Payload : Type :=
| StatusData (id : InstrumentId) (ports : PortStatusMap)
| Instructions (obs : ObsInstructions).

Record Emit : Type := mkEmit {
  event : string;
  data : Payload
}.

Record t : Type := mk {
  device : option D;
  simulation : bool;
  id : InstrumentId;
  status_dictionary : PortStatusMap;
  sio : list Emit                       (* what was emitted, oldest first *)
}.

Definition with_device (self : t) (d : option D) : t :=
  mk d (simulation self) (id self) (status_dictionary self) (sio self).

Definition emit (ev : string) (payload : Payload) : M t unit :=
  fun self =>
    (Ok tt, mk (device self) (simulation self) (id self) (status_dictionary self)
               (sio self ++ [mkEmit ev payload])).

(** Runs a call of the attached device on [self.device]. *)
Definition on_device (d : D) (m : M D unit) : M t unit :=
  fun self => let (r, d') := m d in (r, with_device self (Some d')).

Definition turn_on (port : Z) : M t unit :=
  fun self =>
    match device self with
    | Some d => on_device d (dev_set port) self
    | None => ret tt self
    end.

Definition turn_off (port : Z) : M t unit :=
  fun self =>
    match device self with
    | Some d => on_device d (dev_clear port) self
    | None => ret tt self
    end.

Definition get_instrument_name : string := "spectrograph".

Definition set_obs_type (mode : string) : M t unit :=
  mode_ports <- subscript OBSERVING_MODES mode ;;
  for_each (items mode_ports)
    (fun '(port_name, settings) =>
       status_val <- subscript settings "value" ;;
       port_num <- subscript PORTS port_name ;;
       if String.eqb status_val "On" then turn_on port_num
       else turn_off port_num) ;;
  (fun self => emit "update_status" (StatusData (id self) mode_ports) self).

Definition prepare_observation (mode : string) (obs_instructions : ObsInstructions)
  : M t unit :=
  set_obs_type mode ;;
  emit "spectrograph_changed_ports" (Instructions obs_instructions).

End Controller.

Arguments Payload : clear implicits.
Arguments Emit : clear implicits.
Arguments t : clear implicits.

(** [Spectrograph(device, simulator)]. [super().__init__()] belongs to the
    [Instrument] base class; what it contributes here is [self.id]. *)
Definition __init__ {InstrumentId ObsInstructions : Type}
    (device : string) (simulator : bool) (self_id : InstrumentId)
  : t K8056.t InstrumentId ObsInstructions :=
  mk (if simulator then None else Some (K8056.__init__ device 0 0))
     simulator self_id initial_status_dictionary [].

(** The default of the [device] parameter. *)
Definition default_device : string := "/dev/cu.usbserial-AK068Y10".

End Spectrograph.

(** ** Vocabulary of the specification *)

(** The frame that [_process] assembles. *)
Definition frame (instruction byte address : Z) : list Z :=
  [13; address; instruction; byte; Z.land (243 - instruction - byte - address) 255].

(** The byte strings written to the serial line, in order. *)
Definition writes (tr : list K8056.Event) : list (list Z) :=
  flat_map (fun e => match e with K8056.Write d => [d] | _ => [] end) tr.

(** [n] transmissions of [fr], each followed by a sleep of [w] seconds. *)
Definition burst (fr : list Z) (w : Q) (n : nat) : list K8056.Event :=
  List.concat (List.repeat [K8056.Write fr; K8056.Sleep w] n).

(** What one run of the transmit loop amounts to. *)
Definition process_outcome (fr : list Z) (self : K8056.t) : Res unit * K8056.t :=
  match range_len (K8056.repeat self + 1) with
  | O => (Ok tt, self)
  | n =>
      if forallb K8056.is_byte fr then
        if Qle_bool 0 (K8056.wait self) then
          (Ok tt, K8056.mk (K8056.repeat self) (K8056.wait self)
                    (K8056.trace self ++ burst fr (K8056.wait self) n))
        else
          (Raise ValueError, K8056.mk (K8056.repeat self) (K8056.wait self)
                               (K8056.trace self ++ [K8056.Write fr]))
      else (Raise ValueError, self)
  end.

(** The eight commands of the driver, with their arguments. *)
Inductive Command : Type :=
| Set_ (relay address : Z)
| Clear (relay address : Z)
| Toggle (relay address : Z)
| SetAddress (new address : Z)
| SendByte (num address : Z)
| EmergencyStop
| ForceAddress
| GetAddress.

Definition issue (c : Command) : M K8056.t unit :=
  match c with
  | Set_ relay address => K8056.set relay address
  | Clear relay address => K8056.clear relay address
  | Toggle relay address => K8056.toggle relay address
  | SetAddress new address => K8056.set_address new address
  | SendByte num address => K8056.send_byte num address
  | EmergencyStop => K8056.emergency_stop
  | ForceAddress => K8056.force_address
  | GetAddress => K8056.get_address
  end.

(** A command passes the relay check of the driver. *)
Definition accepted (c : Command) : bool :=
  match c with
  | Set_ relay _ | Clear relay _ | Toggle relay _ => K8056.valid_relay relay
  | _ => true
  end.

(** The frame layout of section 3 of the specification. *)
Definition spec_frame (address instruction data : Z) : list Z :=
  [13; address; instruction; data; (243 - instruction - data - address) mod 256].

(** Instruction, data and address of a command, as section 4.1 lists them. *)
Definition spec_triple (c : Command) : Z * Z * Z :=
  match c with
  | Set_ relay address => (83, relay + 48, address mod 256)
  | Clear relay address => (67, relay + 48, address mod 256)
  | Toggle relay address => (84, relay + 48, address mod 256)
  | SetAddress new address => (65, new mod 256, address mod 256)
  | SendByte num address => (66, num mod 256, address mod 256)
  | EmergencyStop => (69, 1, 1)
  | ForceAddress => (70, 1, 1)
  | GetAddress => (68, 1, 1)
  end.

Definition spec_frame_of (c : Command) : list Z :=
  let '(instruction, data, address) := spec_triple c in
  spec_frame address instruction data.

(** The four observing modes. *)
Definition recognized (mode : string) : Prop :=
  mode = "object"%string \/ mode = "dark"%string \/ mode = "flat"%string
  \/ mode = "thar"%string.

(** A port status as section 3 fixes it: Off goes with warning, On with success. *)
Definition spec_status (on : bool) : Dict string :=
  if on then [ ("value", "On"); ("color", "success") ]%string
  else [ ("value", "Off"); ("color", "warning") ]%string.

Definition spec_vector (mirror led thar tung : bool) : Spectrograph.PortStatusMap :=
  [ ("Mirror", spec_status mirror); ("LED", spec_status led);
    ("ThAr", spec_status thar); ("Tung", spec_status tung) ]%string.

(** The relay index of a call lies in the port table, that is in 1..4. *)
Definition port_call (c : Call) : Prop :=
  In (call_relay c) (map snd PORTS) /\ 1 <= call_relay c <= 4.

(** [prepareObservation] in the words of section 4.2: apply the mode, then
    forward the instructions unchanged on the outbound channel; whatever
    the mode application did to the ports is left as it is. *)
Definition prepareObservation_spec {D : Type} `{RelayDevice D}
    {InstrumentId ObsInstructions : Type}
    (mode : string) (observationInstructions : ObsInstructions)
  : M (Spectrograph.t D InstrumentId ObsInstructions) unit :=
  fun self =>
    match Spectrograph.set_obs_type mode self with
    | (Ok _, applied) =>
        (Ok tt,
         Spectrograph.mk (Spectrograph.device applied) (Spectrograph.simulation applied)
           (Spectrograph.id applied) (Spectrograph.status_dictionary applied)
           (Spectrograph.sio applied ++
              [Spectrograph.mkEmit "spectrograph_changed_ports"
                 (Spectrograph.Instructions observationInstructions)]))
    | (Raise e, failed) => (Raise e, failed)
    end.

(** The loop of [set_obs_type] once the tables are looked up: each port in
    table order, switched on or off, then the status update. *)
Definition switch {D : Type} `{RelayDevice D} {InstrumentId ObsInstructions : Type}
    (on : bool) (port : Z) : M (Spectrograph.t D InstrumentId ObsInstructions) unit :=
  if on then Spectrograph.turn_on port else Spectrograph.turn_off port.

Definition port_plan (mirror led thar tung : bool) : list (bool * Z) :=
  [ (mirror, 1); (led, 2); (thar, 3); (tung, 4) ].

Definition apply_plan {D : Type} `{RelayDevice D} {InstrumentId ObsInstructions : Type}
    (mirror led thar tung : bool)
  : M (Spectrograph.t D InstrumentId ObsInstructions) unit :=
  for_each (port_plan mirror led thar tung) (fun '(on, port) => switch on port) ;;
  (fun self =>
     Spectrograph.emit "update_status"
       (Spectrograph.StatusData (Spectrograph.id self)
          (spec_vector mirror led thar tung)) self).

(** The device of [s] is a logging one, and what it logged since [cs] are
    calls on relays of the port table only. *)
Definition logged_port_calls {D InstrumentId ObsInstructions : Type}
    (cs : list Call) (s : Spectrograph.t (Logged D) InstrumentId ObsInstructions) : Prop :=
  exists (d' : D) (new : list Call),
    Spectrograph.device s = Some (mkLogged d' (cs ++ new)) /\ Forall port_call new.

(** Sample objects: a driver with the default configuration, and the
    controller as [main] builds it, 7 standing for the id that the base
    class assigns. *)
Definition sample_driver : K8056.t := K8056.__init__ "/dev/ttyUSB0" 0 0.

Definition started (simulator : bool) : Spectrograph.t K8056.t Z string :=
  Spectrograph.__init__ Spectrograph.default_device simulator 7.

(** [m] keeps the property [I] of the state, however it ends. *)
Definition preserves {S A : Type} (I : S -> Prop) (m : M S A) : Prop :=
  forall s, I s -> I (snd (m s)).

(** [m] never ends by raising [e]. *)
Definition never_raises {S A : Type} (e : Exn) (m : M S A) : Prop :=
  forall s, fst (m s) <> Raise e.

(** ** Further vocabulary: the driver *)

(** The sum of the bytes of a frame, which a K8056 card checks. *)
Definition byte_sum (fr : list Z) : Z := fold_right Z.add 0 fr.

(** The arguments of a command are bytes already, so that masking them
    changes nothing. *)
Definition normal (c : Command) : bool :=
  match c with
  | Set_ _ address | Clear _ address | Toggle _ address => K8056.is_byte address
  | SetAddress new address => K8056.is_byte new && K8056.is_byte address
  | SendByte num address => K8056.is_byte num && K8056.is_byte address
  | _ => true
  end.

(** ** Further vocabulary: the controller *)

(** The frame that switching a port on or off puts on the line: [set] or
    [clear] of that relay on card 1. *)
Definition port_frame (on : bool) (port : Z) : list Z :=
  if on then [13; 1; 83; port + 48; (243 - 83 - (port + 48) - 1) mod 256]
  else [13; 1; 67; port + 48; (243 - 67 - (port + 48) - 1) mod 256].

(** What the line sees when the four ports are switched in table order,
    every frame going out [n] times with a sleep of [w] after each. *)
Definition mode_events (mirror led thar tung : bool) (w : Q) (n : nat)
  : list K8056.Event :=
  burst (port_frame mirror 1) w n ++ burst (port_frame led 2) w n
  ++ burst (port_frame thar 3) w n ++ burst (port_frame tung 4) w n.

(** The controllers that exist: built by the constructor, then driven by
    the two handlers, whether a handler call ended normally or not. *)
Inductive reachable {InstrumentId ObsInstructions : Type}
  : Spectrograph.t K8056.t InstrumentId ObsInstructions -> Prop :=
| reach_init (device : string) (simulator : bool) (self_id : InstrumentId) :
    reachable (Spectrograph.__init__ device simulator self_id)
| reach_set_obs_type (mode : string) self :
    reachable self -> reachable (snd (Spectrograph.set_obs_type mode self))
| reach_prepare_observation (mode : string) (obs : ObsInstructions) self :
    reachable self ->
    reachable (snd (Spectrograph.prepare_observation mode obs self)).

(** Everything of a controller but the state of its device is in [s] as
    it is in [self]. *)
Definition untouched {D InstrumentId ObsInstructions : Type}
    (self s : Spectrograph.t D InstrumentId ObsInstructions) : Prop :=
  Spectrograph.simulation s = Spectrograph.simulation self
  /\ Spectrograph.id s = Spectrograph.id self
  /\ Spectrograph.status_dictionary s = Spectrograph.status_dictionary self
  /\ Spectrograph.sio s = Spectrograph.sio self
  /\ (Spectrograph.device s = None <-> Spectrograph.device self = None).

(** The only things a controller puts on its line: a [set] or [clear]
    frame for one of the relays 1..4 of card 1, or a sleep of length 0. *)
Definition controller_frame (fr : list Z) : Prop :=
  exists (on : bool) (port : Z), 1 <= port <= 4 /\ fr = port_frame on port.

Definition controller_event (e : K8056.Event) : Prop :=
  e = K8056.Sleep 0 \/ exists fr, controller_frame fr /\ e = K8056.Write fr.

(** What the constructor establishes and the handlers keep. *)
Definition well_kept {InstrumentId ObsInstructions : Type}
    (s : Spectrograph.t K8056.t InstrumentId ObsInstructions) : Prop :=
  (Spectrograph.simulation s = true <-> Spectrograph.device s = None)
  /\ Spectrograph.status_dictionary s = Spectrograph.initial_status_dictionary
  /\ match Spectrograph.device s with
     | None => True
     | Some d =>
         K8056.repeat d = 0 /\ K8056.wait d = 0%Q
         /\ exists (path : string) (rest : list K8056.Event),
              K8056.trace d = K8056.Open path 2400 :: K8056.Sleep (1 # 10) :: rest
              /\ Forall controller_event rest
     end.

(** The history of the line behind a controller; empty without a device. *)
Definition line {InstrumentId ObsInstructions : Type}
    (self : Spectrograph.t K8056.t InstrumentId ObsInstructions)
  : list K8056.Event :=
  match Spectrograph.device self with
  | Some d => K8056.trace d
  | None => []
  end.

(** ** The transmit loop *)

Lemma land_255 (x : Z) : Z.land x 255 = x mod 256.
Proof. change 255 with (Z.ones 8). rewrite Z.land_ones by lia. reflexivity. Qed.

Lemma frame_spec_frame (i b a : Z) : frame i b a = spec_frame a i b.
Proof. unfold frame, spec_frame. now rewrite land_255. Qed.

Lemma writes_app (xs ys : list K8056.Event) : writes (xs ++ ys) = writes xs ++ writes ys.
Proof. unfold writes. apply flat_map_app. Qed.

Lemma writes_burst (fr : list Z) (w : Q) (n : nat) :
  writes (burst fr w n) = List.repeat fr n.
Proof.
  unfold burst. induction n as [|n IH]; simpl; [reflexivity|].
  now f_equal.
Qed.

Lemma burst_succ (fr : list Z) (w : Q) (n : nat) :
  burst fr w (S n) = K8056.Write fr :: K8056.Sleep w :: burst fr w n.
Proof. reflexivity. Qed.

Lemma transmit_once (fr : list Z) (rp : Z) (w : Q) (tr : list K8056.Event) :
  forallb K8056.is_byte fr = true ->
  (data <- K8056.bytearray fr ;; K8056.serial_write data ;;
   (fun self => K8056.sleep (K8056.wait self) self))
    (K8056.mk rp w tr)
  = if Qle_bool 0 w
    then (Ok tt, K8056.mk rp w (tr ++ [K8056.Write fr; K8056.Sleep w]))
    else (Raise ValueError, K8056.mk rp w (tr ++ [K8056.Write fr])).
Proof.
  intros Hb. unfold bind, K8056.bytearray. rewrite Hb.
  unfold ret, K8056.serial_write, K8056.log, K8056.sleep.
  cbn [K8056.wait K8056.repeat K8056.trace].
  destruct (Qle_bool 0 w); [|reflexivity].
  unfold K8056.log. cbn [K8056.wait K8056.repeat K8056.trace].
  now rewrite <- app_assoc.
Qed.

Lemma for_range_burst (fr : list Z) (rp : Z) (w : Q) :
  forallb K8056.is_byte fr = true ->
  Qle_bool 0 w = true ->
  forall (n : nat) (tr : list K8056.Event),
    for_range n
      (data <- K8056.bytearray fr ;; K8056.serial_write data ;;
       (fun self => K8056.sleep (K8056.wait self) self))
      (K8056.mk rp w tr)
    = (Ok tt, K8056.mk rp w (tr ++ burst fr w n)).
Proof.
  intros Hb Hw.
  pose proof (fun tr => transmit_once fr rp w tr Hb) as Hbody.
  rewrite Hw in Hbody.
  set (body := bind (K8056.bytearray fr) _) in *. clearbody body.
  induction n as [|n IH]; intros tr.
  - unfold burst. simpl. now rewrite app_nil_r.
  - cbn [for_range]. unfold bind. rewrite Hbody, IH, burst_succ, <- app_assoc.
    reflexivity.
Qed.

Lemma process_run (i b a : Z) (self : K8056.t) :
  K8056._process i b a self = process_outcome (frame i b a) self.
Proof.
  destruct self as [rp w tr].
  unfold K8056._process, process_outcome. fold (frame i b a).
  cbn [K8056.wait K8056.repeat K8056.trace].
  destruct (range_len (rp + 1)) as [|n] eqn:En; [reflexivity|].
  destruct (forallb K8056.is_byte (frame i b a)) eqn:Hb.
  - destruct (Qle_bool 0 w) eqn:Hw.
    + now apply for_range_burst.
    + cbn [for_range]. unfold bind at 1. rewrite transmit_once by exact Hb.
      now rewrite Hw.
  - cbn [for_range]. unfold bind, K8056.bytearray. now rewrite Hb.
Qed.

(** ** The commands of the driver *)

Lemma valid_relay_iff (relay : Z) : K8056.valid_relay relay = true <-> 1 <= relay <= 9.
Proof. unfold K8056.valid_relay. rewrite andb_true_iff, !Z.ltb_lt. lia. Qed.

Lemma valid_relay_false_iff (relay : Z) :
  K8056.valid_relay relay = false <-> relay < 1 \/ 9 < relay.
Proof.
  rewrite <- not_true_iff_false, valid_relay_iff. lia.
Qed.

Lemma is_byte_iff (x : Z) : K8056.is_byte x = true <-> 0 <= x < 256.
Proof. unfold K8056.is_byte. rewrite andb_true_iff, Z.leb_le, Z.ltb_lt. reflexivity. Qed.

Lemma is_byte_mod (x : Z) : K8056.is_byte (x mod 256) = true.
Proof. apply is_byte_iff, Z.mod_pos_bound. lia. Qed.

Lemma spec_frame_bytes (address instruction data : Z) :
  0 <= address < 256 -> 0 <= instruction < 256 -> 0 <= data < 256 ->
  forallb K8056.is_byte (spec_frame address instruction data) = true.
Proof.
  intros Ha Hi Hd. unfold spec_frame. cbn [forallb].
  rewrite is_byte_mod, andb_true_r, !andb_true_iff, !is_byte_iff. lia.
Qed.

Lemma spec_frame_of_bytes (c : Command) :
  accepted c = true -> forallb K8056.is_byte (spec_frame_of c) = true.
Proof.
  intros Hc.
  assert (Hm : forall x, 0 <= x mod 256 < 256) by (intros; apply Z.mod_pos_bound; lia).
  destruct c; unfold spec_frame_of, spec_triple; cbn [accepted] in Hc;
    try apply valid_relay_iff in Hc; apply spec_frame_bytes;
    try apply Hm; lia.
Qed.

Lemma issue_accepted (c : Command) (self : K8056.t) :
  accepted c = true -> issue c self = process_outcome (spec_frame_of c) self.
Proof.
  intros Hc.
  destruct c; cbn [issue accepted] in *;
    unfold K8056.set, K8056.clear, K8056.toggle, K8056.set_address, K8056.send_byte,
      K8056.emergency_stop, K8056.force_address, K8056.get_address;
    rewrite ?Hc; cbn [negb]; rewrite process_run, frame_spec_frame, ?land_255;
    reflexivity.
Qed.

Lemma issue_rejected (c : Command) (self : K8056.t) :
  accepted c = false -> issue c self = (Raise InvalidRelay, self).
Proof.
  intros Hc.
  destruct c; cbn [issue accepted] in *; try discriminate;
    unfold K8056.set, K8056.clear, K8056.toggle; rewrite Hc; reflexivity.
Qed.

(** The transmit loop only appends to the history, and every write it
    appends is the frame it was given. *)
Lemma process_outcome_trace (fr : list Z) (self : K8056.t) :
  exists (new : list K8056.Event) (n : nat),
    K8056.trace (snd (process_outcome fr self)) = K8056.trace self ++ new
    /\ writes new = List.repeat fr n
    /\ (forallb K8056.is_byte fr = true -> 0 <= K8056.repeat self -> (1 <= n)%nat).
Proof.
  unfold process_outcome.
  destruct (range_len (K8056.repeat self + 1)) as [|n] eqn:En.
  - exists [], O. cbn [snd]. rewrite app_nil_r. repeat split.
    unfold range_len in En. lia.
  - destruct (forallb K8056.is_byte fr).
    + destruct (Qle_bool 0 (K8056.wait self)).
      * exists (burst fr (K8056.wait self) (S n)), (S n). cbn [snd K8056.trace].
        rewrite writes_burst. repeat split. lia.
      * exists [K8056.Write fr], 1%nat. cbn [snd K8056.trace]. repeat split. lia.
    + exists [], O. cbn [snd]. rewrite app_nil_r. repeat split. discriminate.
Qed.

Lemma process_outcome_ok (fr : list Z) (k : Z) (w : Q) (tr : list K8056.Event) :
  forallb K8056.is_byte fr = true -> (0 <= w)%Q ->
  process_outcome fr (K8056.mk k w tr)
  = (Ok tt, K8056.mk k w (tr ++ burst fr w (range_len (k + 1)))).
Proof.
  intros Hb Hw. unfold process_outcome. cbn [K8056.wait K8056.repeat K8056.trace].
  apply Qle_bool_iff in Hw. rewrite Hb, Hw.
  destruct (range_len (k + 1)) eqn:En; [|reflexivity].
  unfold burst. simpl. now rewrite app_nil_r.
Qed.

(** A run of the transmit loop ends normally or in [ValueError]. *)
Lemma process_outcome_result (fr : list Z) (self : K8056.t) :
  fst (process_outcome fr self) = Ok tt \/ fst (process_outcome fr self) = Raise ValueError.
Proof.
  unfold process_outcome.
  destruct (range_len _); [now left|].
  destruct (forallb _ _); [destruct (Qle_bool _ _)|]; cbn [fst]; auto.
Qed.

(** C1. Whatever command the driver is given, it only appends to the
    history of the line, and every frame it writes is the five bytes
    [13, address, instruction, data, checksum] of that command, each a
    byte, with checksum = (243 - instruction - data - address) mod 256.
    A command that passes the relay check writes at least one such frame
    when the repeat count is not negative. *)
Theorem issued_frames_well_formed (c : Command) (self : K8056.t) :
  exists (new : list K8056.Event) (n : nat),
    K8056.trace (snd (issue c self)) = K8056.trace self ++ new
    /\ writes new = List.repeat (spec_frame_of c) n
    /\ Forall (fun fr : list Z =>
                 List.length fr = 5%nat
                 /\ Forall (fun x => 0 <= x < 256) fr
                 /\ exists address instruction data,
                      fr = [13; address; instruction; data;
                            (243 - instruction - data - address) mod 256])
              (writes new)
    /\ (accepted c = true -> 0 <= K8056.repeat self -> (1 <= n)%nat).
Proof.
  destruct (accepted c) eqn:Hc.
  - rewrite issue_accepted by exact Hc.
    pose proof (spec_frame_of_bytes c Hc) as Hb.
    destruct (process_outcome_trace (spec_frame_of c) self) as (new & n & Htr & Hw & Hn).
    exists new, n. split; [assumption|]. split; [assumption|]. split; [|auto].
    rewrite Hw. apply Forall_forall. intros fr Hin.
    apply repeat_spec in Hin. subst fr. repeat split.
    + unfold spec_frame_of. destruct (spec_triple c) as [[i d] a]. reflexivity.
    + apply Forall_forall. intros x Hx. apply is_byte_iff.
      rewrite forallb_forall in Hb. now apply Hb.
    + unfold spec_frame_of. destruct (spec_triple c) as [[i d] a].
      now exists a, i, d.
  - rewrite issue_rejected by exact Hc.
    exists [], O. cbn [snd]. rewrite app_nil_r.
    repeat split; [constructor|discriminate].
Qed.

(** C2. With a repeat count k >= 0 and a delay w >= 0, a command that
    passes the relay check ends normally and appends to the history exactly
    k+1 copies of "write the frame, then sleep w": k+1 writes, all of the
    same bytes, each one followed by the sleep, the last one included. *)
Theorem command_sends_repeat_plus_one
    (c : Command) (k : Z) (w : Q) (tr : list K8056.Event) :
  0 <= k -> (0 <= w)%Q -> accepted c = true ->
  issue c (K8056.mk k w tr)
  = (Ok tt,
     K8056.mk k w
       (tr ++ List.concat
                (List.repeat [K8056.Write (spec_frame_of c); K8056.Sleep w]
                   (Z.to_nat (k + 1)))))
  /\ writes (K8056.trace (snd (issue c (K8056.mk k w tr))))
     = writes tr ++ List.repeat (spec_frame_of c) (Z.to_nat (k + 1))
  /\ Z.of_nat (List.length (List.repeat (spec_frame_of c) (Z.to_nat (k + 1)))) = k + 1.
Proof.
  intros Hk Hw Hc.
  rewrite issue_accepted by exact Hc.
  rewrite process_outcome_ok by (try apply spec_frame_of_bytes; assumption).
  cbn [snd K8056.trace]. rewrite writes_app, writes_burst, repeat_length.
  repeat split. lia.
Qed.

Lemma command_sends_repeat_plus_one_witness :
  issue (Toggle 9 300) (K8056.mk 2 (1 # 2) [])
  = (Ok tt,
     K8056.mk 2 (1 # 2)
       [K8056.Write [13; 44; 84; 57; 58]; K8056.Sleep (1 # 2);
        K8056.Write [13; 44; 84; 57; 58]; K8056.Sleep (1 # 2);
        K8056.Write [13; 44; 84; 57; 58]; K8056.Sleep (1 # 2)]).
Proof.
  refine (proj1 (command_sends_repeat_plus_one (Toggle 9 300) 2 (1 # 2) [] _ _ _)).
  - lia.
  - unfold Qle; simpl; lia.
  - reflexivity.
Defined.

(** C3. A relay index outside 1..9 makes [set], [clear] and [toggle] raise
    the invalid-relay exception and leaves the driver, hence the line,
    untouched. An index in 1..9 never raises it, and the call ends
    normally whenever the configured delay is not negative. *)
Theorem relay_index_checked (relay address : Z) (self : K8056.t) :
  (relay < 1 \/ 9 < relay ->
     K8056.set relay address self = (Raise InvalidRelay, self)
     /\ K8056.clear relay address self = (Raise InvalidRelay, self)
     /\ K8056.toggle relay address self = (Raise InvalidRelay, self))
  /\ (1 <= relay <= 9 ->
        (fst (K8056.set relay address self) <> Raise InvalidRelay
         /\ fst (K8056.clear relay address self) <> Raise InvalidRelay
         /\ fst (K8056.toggle relay address self) <> Raise InvalidRelay)
        /\ ((0 <= K8056.wait self)%Q ->
              fst (K8056.set relay address self) = Ok tt
              /\ fst (K8056.clear relay address self) = Ok tt
              /\ fst (K8056.toggle relay address self) = Ok tt)).
Proof.
  split; intros Hr.
  - apply valid_relay_false_iff in Hr.
    repeat split.
    + exact (issue_rejected (Set_ relay address) self Hr).
    + exact (issue_rejected (Clear relay address) self Hr).
    + exact (issue_rejected (Toggle relay address) self Hr).
  - apply valid_relay_iff in Hr.
    pose proof (issue_accepted (Set_ relay address) self Hr) as Hs.
    pose proof (issue_accepted (Clear relay address) self Hr) as Hc.
    pose proof (issue_accepted (Toggle relay address) self Hr) as Ht.
    cbn [issue] in Hs, Hc, Ht. rewrite Hs, Hc, Ht. split.
    + repeat split;
        match goal with
        | |- fst (process_outcome ?fr self) <> _ =>
            destruct (process_outcome_result fr self) as [E|E]; rewrite E; discriminate
        end.
    + intros Hw. destruct self as [k w tr]. cbn [K8056.wait] in Hw.
      apply Qle_bool_iff in Hw.
      unfold process_outcome. cbn [K8056.wait K8056.repeat K8056.trace].
      rewrite Hw.
      rewrite (spec_frame_of_bytes (Set_ relay address) Hr),
        (spec_frame_of_bytes (Clear relay address) Hr),
        (spec_frame_of_bytes (Toggle relay address) Hr).
      destruct (range_len (k + 1)); repeat split.
Qed.

Lemma relay_index_checked_witness :
  K8056.set 10 1 sample_driver = (Raise InvalidRelay, sample_driver)
  /\ fst (K8056.toggle 9 1 sample_driver) = Ok tt.
Proof.
  split.
  - refine (proj1 (proj1 (relay_index_checked 10 1 sample_driver) _)). lia.
  - refine (proj2 (proj2 (proj2 (proj2 (relay_index_checked 9 1 sample_driver) _) _))).
    + lia.
    + unfold Qle; simpl; lia.
Defined.

(** C4. For a relay index r in 1..9 and any integer address, every frame
    that [set] writes is [13, address mod 256, 83, r+48, checksum]; [clear]
    writes the same with 67 and [toggle] with 84. Nothing else is written,
    and with a repeat count >= 0 at least one frame is. *)
Theorem relay_commands_encoding (relay address : Z) (self : K8056.t) :
  1 <= relay <= 9 ->
  exists ns nc nt : nat,
    writes (K8056.trace (snd (K8056.set relay address self)))
    = writes (K8056.trace self)
      ++ List.repeat [13; address mod 256; 83; relay + 48;
                      (243 - 83 - (relay + 48) - address mod 256) mod 256] ns
    /\ writes (K8056.trace (snd (K8056.clear relay address self)))
       = writes (K8056.trace self)
         ++ List.repeat [13; address mod 256; 67; relay + 48;
                         (243 - 67 - (relay + 48) - address mod 256) mod 256] nc
    /\ writes (K8056.trace (snd (K8056.toggle relay address self)))
       = writes (K8056.trace self)
         ++ List.repeat [13; address mod 256; 84; relay + 48;
                         (243 - 84 - (relay + 48) - address mod 256) mod 256] nt
    /\ (0 <= K8056.repeat self -> (1 <= ns)%nat /\ (1 <= nc)%nat /\ (1 <= nt)%nat).
Proof.
  intros Hr. apply valid_relay_iff in Hr.
  pose proof (issue_accepted (Set_ relay address) self Hr) as Hs.
  pose proof (issue_accepted (Clear relay address) self Hr) as Hc.
  pose proof (issue_accepted (Toggle relay address) self Hr) as Ht.
  cbn [issue] in Hs, Hc, Ht. rewrite Hs, Hc, Ht.
  destruct (process_outcome_trace (spec_frame_of (Set_ relay address)) self)
    as (new1 & ns & E1 & W1 & P1).
  destruct (process_outcome_trace (spec_frame_of (Clear relay address)) self)
    as (new2 & nc & E2 & W2 & P2).
  destruct (process_outcome_trace (spec_frame_of (Toggle relay address)) self)
    as (new3 & nt & E3 & W3 & P3).
  exists ns, nc, nt. rewrite E1, E2, E3, !writes_app, W1, W2, W3.
  repeat split.
  - apply P1; [now apply (spec_frame_of_bytes (Set_ relay address))|assumption].
  - apply P2; [now apply (spec_frame_of_bytes (Clear relay address))|assumption].
  - apply P3; [now apply (spec_frame_of_bytes (Toggle relay address))|assumption].
Qed.

Lemma relay_commands_encoding_witness :
  exists ns nc nt : nat,
    writes (K8056.trace (snd (K8056.set 3 (-1) (K8056.mk 1 0 []))))
    = writes [] ++ List.repeat [13; 255; 83; 51; 110] ns
    /\ writes (K8056.trace (snd (K8056.clear 3 (-1) (K8056.mk 1 0 []))))
       = writes [] ++ List.repeat [13; 255; 67; 51; 126] nc
    /\ writes (K8056.trace (snd (K8056.toggle 3 (-1) (K8056.mk 1 0 []))))
       = writes [] ++ List.repeat [13; 255; 84; 51; 109] nt
    /\ (0 <= 1 -> (1 <= ns)%nat /\ (1 <= nc)%nat /\ (1 <= nt)%nat).
Proof.
  refine (relay_commands_encoding 3 (-1) (K8056.mk 1 0 []) _). lia.
Defined.

(** ** Reasoning rules for the monad *)

Section Rules.

Context {S : Type}.

Lemma preserves_ret {A : Type} (I : S -> Prop) (a : A) : preserves I (ret a).
Proof. intros s Hs. exact Hs. Qed.

Lemma preserves_raise {A : Type} (I : S -> Prop) (e : Exn) :
  preserves I (@raise S A e).
Proof. intros s Hs. exact Hs. Qed.

Lemma preserves_bind {A B : Type} (I : S -> Prop) (m : M S A) (k : A -> M S B) :
  preserves I m -> (forall a, preserves I (k a)) -> preserves I (bind m k).
Proof.
  intros Hm Hk s Hs. unfold bind. specialize (Hm s Hs).
  destruct (m s) as [[a|e] s']; cbn [snd] in *; [now apply Hk|assumption].
Qed.

Lemma preserves_subscript {V : Type} (I : S -> Prop) (d : Dict V) (k : string) :
  preserves I (@subscript S V d k).
Proof.
  unfold subscript. destruct (dict_get d k); [apply preserves_ret|apply preserves_raise].
Qed.

Lemma preserves_for_each {A : Type} (I : S -> Prop) (xs : list A) (body : A -> M S unit) :
  (forall x, In x xs -> preserves I (body x)) -> preserves I (for_each xs body).
Proof.
  induction xs as [|x xs IH]; intros Hbody; cbn [for_each].
  - apply preserves_ret.
  - apply preserves_bind.
    + apply Hbody. now left.
    + intros _. apply IH. intros y Hy. apply Hbody. now right.
Qed.

Lemma never_raises_ret {A : Type} (e : Exn) (a : A) : never_raises e (@ret S A a).
Proof. intros s. discriminate. Qed.

Lemma never_raises_bind {A B : Type} (e : Exn) (m : M S A) (k : A -> M S B) :
  never_raises e m -> (forall a, never_raises e (k a)) -> never_raises e (bind m k).
Proof.
  intros Hm Hk s. unfold bind. specialize (Hm s).
  destruct (m s) as [[a|e'] s']; cbn [fst] in *; [apply Hk|].
  intros E. apply Hm. now inversion E.
Qed.

Lemma never_raises_for_each {A : Type} (e : Exn) (xs : list A) (body : A -> M S unit) :
  (forall x, In x xs -> never_raises e (body x)) -> never_raises e (for_each xs body).
Proof.
  induction xs as [|x xs IH]; intros Hbody; cbn [for_each].
  - apply never_raises_ret.
  - apply never_raises_bind.
    + apply Hbody. now left.
    + intros _. apply IH. intros y Hy. apply Hbody. now right.
Qed.

End Rules.

(** ** The controller *)

Lemma unrecognized_lookup (mode : string) :
  ~ recognized mode -> dict_get Spectrograph.OBSERVING_MODES mode = None.
Proof.
  intros Hn. unfold recognized in Hn. cbn [dict_get Spectrograph.OBSERVING_MODES].
  repeat match goal with
         | |- context [String.eqb mode ?k] =>
             destruct (String.eqb_spec mode k); [exfalso; tauto|]
         end.
  reflexivity.
Qed.

Section ControllerFacts.

Context {D : Type} `{RelayDevice D} {InstrumentId ObsInstructions : Type}.

Implicit Types self : Spectrograph.t D InstrumentId ObsInstructions.

Lemma turn_on_keeps_status (sd : Spectrograph.PortStatusMap) (port : Z) :
  preserves (fun self => Spectrograph.status_dictionary self = sd)
    (Spectrograph.turn_on port).
Proof.
  intros self Hs. unfold Spectrograph.turn_on, Spectrograph.on_device.
  destruct (Spectrograph.device self) as [d|]; [|exact Hs].
  destruct (dev_set port d). exact Hs.
Qed.

Lemma turn_off_keeps_status (sd : Spectrograph.PortStatusMap) (port : Z) :
  preserves (fun self => Spectrograph.status_dictionary self = sd)
    (Spectrograph.turn_off port).
Proof.
  intros self Hs. unfold Spectrograph.turn_off, Spectrograph.on_device.
  destruct (Spectrograph.device self) as [d|]; [|exact Hs].
  destruct (dev_clear port d). exact Hs.
Qed.

(** No handler ever assigns [status_dictionary]. *)
Lemma set_obs_type_keeps_status (mode : string) self :
  Spectrograph.status_dictionary (snd (Spectrograph.set_obs_type mode self))
  = Spectrograph.status_dictionary self.
Proof.
  enough (Hp : preserves
                 (fun s => Spectrograph.status_dictionary s
                           = Spectrograph.status_dictionary self)
                 (Spectrograph.set_obs_type mode))
    by exact (Hp self eq_refl).
  apply preserves_bind; [apply preserves_subscript|].
  intros mode_ports. apply preserves_bind.
  - apply preserves_for_each. intros [port_name settings] _.
    apply preserves_bind; [apply preserves_subscript|intros status_val].
    apply preserves_bind; [apply preserves_subscript|intros port_num].
    destruct (String.eqb status_val "On");
      [apply turn_on_keeps_status|apply turn_off_keeps_status].
  - intros _ s Hs. exact Hs.
Qed.

End ControllerFacts.

Section ControllerClaims.

Context {D : Type} `{RelayDevice D} {InstrumentId ObsInstructions : Type}.

Implicit Types self : Spectrograph.t D InstrumentId ObsInstructions.

(** C7. With no device attached, a recognized mode is applied without
    error: the handler ends normally, publishes the static vector of the
    mode as the "update_status" payload, still has no device afterwards (so
    nothing was written to any line), and changes nothing else. *)
Theorem simulation_applies_mode (mode : string) self :
  recognized mode ->
  Spectrograph.device self = None ->
  exists ports : Spectrograph.PortStatusMap,
    dict_get Spectrograph.OBSERVING_MODES mode = Some ports
    /\ Spectrograph.set_obs_type mode self
       = (Ok tt,
          Spectrograph.mk None (Spectrograph.simulation self) (Spectrograph.id self)
            (Spectrograph.status_dictionary self)
            (Spectrograph.sio self ++
               [Spectrograph.mkEmit "update_status"
                  (Spectrograph.StatusData (Spectrograph.id self) ports)])).
Proof.
  intros Hm Hdev.
  destruct self as [dev sim i sd out]. cbn [Spectrograph.device] in Hdev. subst dev.
  destruct Hm as [E|[E|[E|E]]]; subst mode; eexists; split; reflexivity.
Qed.

(** C8. A mode name that is not one of the four is refused by the table
    lookup itself, with the key error for that name: no port was looked
    at, no relay command issued, nothing emitted, and the controller is
    exactly as it was. *)
Theorem unknown_mode_rejected (mode : string) self :
  ~ recognized mode ->
  Spectrograph.set_obs_type mode self = (Raise (KeyError mode), self).
Proof.
  intros Hn. unfold Spectrograph.set_obs_type, bind, subscript.
  now rewrite (unrecognized_lookup mode Hn).
Qed.

(** C9. [prepare_observation] is [set_obs_type] followed by one emit that
    carries the instructions as they came: it agrees with the
    specification's description on every mode and state, and the device
    and the status dictionary are those that [set_obs_type] alone leaves. *)
Theorem prepare_observation_refines (mode : string) (obs : ObsInstructions) self :
  Spectrograph.prepare_observation mode obs self
  = prepareObservation_spec mode obs self
  /\ Spectrograph.device (snd (Spectrograph.prepare_observation mode obs self))
     = Spectrograph.device (snd (Spectrograph.set_obs_type mode self))
  /\ Spectrograph.status_dictionary (snd (Spectrograph.prepare_observation mode obs self))
     = Spectrograph.status_dictionary (snd (Spectrograph.set_obs_type mode self))
  /\ (fst (Spectrograph.set_obs_type mode self) = Ok tt ->
      Spectrograph.sio (snd (Spectrograph.prepare_observation mode obs self))
      = Spectrograph.sio (snd (Spectrograph.set_obs_type mode self))
        ++ [Spectrograph.mkEmit "spectrograph_changed_ports"
              (Spectrograph.Instructions obs)]).
Proof.
  unfold Spectrograph.prepare_observation, prepareObservation_spec, bind.
  destruct (Spectrograph.set_obs_type mode self) as [[[]|e] applied];
    cbn [fst snd]; repeat split; discriminate.
Qed.

End ControllerClaims.

Lemma simulation_applies_mode_witness :
  Spectrograph.set_obs_type "flat" (started true)
  = (Ok tt,
     Spectrograph.mk None true 7 (spec_vector false false false false)
       [Spectrograph.mkEmit "update_status"
          (Spectrograph.StatusData 7 (spec_vector true true false false))]).
Proof.
  destruct (simulation_applies_mode "flat" (started true))
    as (ports & Hports & Hrun).
  - right. right. left. reflexivity.
  - reflexivity.
  - injection Hports as <-. exact Hrun.
Defined.

Lemma unknown_mode_rejected_witness :
  Spectrograph.set_obs_type "unknown" (started false)
  = (Raise (KeyError "unknown"), started false).
Proof.
  apply unknown_mode_rejected.
  intros [E|[E|[E|E]]]; discriminate E.
Defined.

(** ** The handler in normal form *)

Lemma set_obs_type_plan {D : Type} `{RelayDevice D} {InstrumentId ObsInstructions : Type}
    (mode : string) :
  recognized mode ->
  exists mirror led thar tung : bool,
    dict_get Spectrograph.OBSERVING_MODES mode = Some (spec_vector mirror led thar tung)
    /\ forall self : Spectrograph.t D InstrumentId ObsInstructions,
         Spectrograph.set_obs_type mode self = apply_plan mirror led thar tung self.
Proof.
  intros [E|[E|[E|E]]]; subst mode.
  - exists false, false, false, false. split; reflexivity.
  - exists true, false, false, false. split; reflexivity.
  - exists true, true, false, false. split; reflexivity.
  - exists true, false, true, false. split; reflexivity.
Qed.

Lemma port_plan_in (mirror led thar tung on : bool) (port : Z) :
  In (on, port) (port_plan mirror led thar tung) ->
  1 <= port <= 4 /\ In port (map snd PORTS).
Proof.
  unfold port_plan. cbn [In map snd PORTS].
  intros [E|[E|[E|[E|[]]]]]; inversion E; subst; split; try lia; tauto.
Qed.

(** *** Which calls reach the device *)

Lemma switch_logged_calls {D : Type} `{RelayDevice D} {InstrumentId ObsInstructions : Type}
    (cs : list Call) (on : bool) (port : Z) :
  1 <= port <= 4 -> In port (map snd PORTS) ->
  preserves (@logged_port_calls D InstrumentId ObsInstructions cs) (switch on port).
Proof.
  intros Hr Hin s (d' & new & Hdev & Hall).
  unfold switch, Spectrograph.turn_on, Spectrograph.turn_off, Spectrograph.on_device.
  destruct on; rewrite Hdev; cbn [dev_set dev_clear Logged_device]; unfold logged;
    cbn [inner calls].
  - destruct (dev_set port d') as [r d'']. cbn [snd].
    exists d'', (new ++ [CallSet port]). split.
    + cbn [Spectrograph.with_device Spectrograph.device]. now rewrite app_assoc.
    + apply Forall_app. split; [assumption|].
      constructor; [split; assumption|constructor].
  - destruct (dev_clear port d') as [r d'']. cbn [snd].
    exists d'', (new ++ [CallClear port]). split.
    + cbn [Spectrograph.with_device Spectrograph.device]. now rewrite app_assoc.
    + apply Forall_app. split; [assumption|].
      constructor; [split; assumption|constructor].
Qed.

Lemma apply_plan_logged_calls {D : Type} `{RelayDevice D}
    {InstrumentId ObsInstructions : Type}
    (cs : list Call) (mirror led thar tung : bool) :
  preserves (@logged_port_calls D InstrumentId ObsInstructions cs)
    (apply_plan mirror led thar tung).
Proof.
  unfold apply_plan. apply preserves_bind.
  - apply preserves_for_each. intros [on port] Hin.
    apply port_plan_in in Hin. now apply switch_logged_calls.
  - intros _ s Hs. exact Hs.
Qed.

(** *** The driver behind the controller *)

Lemma switch_K8056_no_invalid_relay {InstrumentId ObsInstructions : Type}
    (on : bool) (port : Z) :
  1 <= port <= 4 ->
  never_raises InvalidRelay
    (switch (D := K8056.t) (InstrumentId := InstrumentId)
       (ObsInstructions := ObsInstructions) on port).
Proof.
  intros Hr s.
  assert (Hv : K8056.valid_relay port = true) by (apply valid_relay_iff; lia).
  unfold switch, Spectrograph.turn_on, Spectrograph.turn_off, Spectrograph.on_device.
  destruct on; (destruct (Spectrograph.device s) as [d|]; [|discriminate]);
    cbn [dev_set dev_clear K8056_device].
  - pose proof (issue_accepted (Set_ port K8056.default_address) d Hv) as E.
    cbn [issue] in E. rewrite E.
    destruct (process_outcome_result (spec_frame_of (Set_ port K8056.default_address)) d)
      as [R|R]; destruct (process_outcome _ d) as [r d'']; cbn [fst] in *;
      subst r; discriminate.
  - pose proof (issue_accepted (Clear port K8056.default_address) d Hv) as E.
    cbn [issue] in E. rewrite E.
    destruct (process_outcome_result (spec_frame_of (Clear port K8056.default_address)) d)
      as [R|R]; destruct (process_outcome _ d) as [r d'']; cbn [fst] in *;
      subst r; discriminate.
Qed.

Lemma apply_plan_K8056_no_invalid_relay {InstrumentId ObsInstructions : Type}
    (mirror led thar tung : bool) :
  never_raises InvalidRelay
    (apply_plan (D := K8056.t) (InstrumentId := InstrumentId)
       (ObsInstructions := ObsInstructions) mirror led thar tung).
Proof.
  unfold apply_plan. apply never_raises_bind.
  - apply never_raises_for_each. intros [on port] Hin.
    apply port_plan_in in Hin. now apply switch_K8056_no_invalid_relay.
  - intros _ s. discriminate.
Qed.

(** C10. For a recognized mode, whatever the device is, every call that
    [set_obs_type] makes on it carries a relay index of the port table,
    which lies in 1..4; and on the K8056 driver the handler never ends
    with the invalid-relay exception. *)
Theorem mode_relays_come_from_port_table
    {InstrumentId ObsInstructions : Type} (mode : string) :
  recognized mode ->
  (forall (D : Type) (HD : RelayDevice D)
          (self : Spectrograph.t (Logged D) InstrumentId ObsInstructions)
          (d : D) (cs : list Call),
      Spectrograph.device self = Some (mkLogged d cs) ->
      exists (d' : D) (new : list Call),
        Spectrograph.device (snd (Spectrograph.set_obs_type mode self))
        = Some (mkLogged d' (cs ++ new))
        /\ Forall (fun c => In (call_relay c) (map snd PORTS) /\ 1 <= call_relay c <= 4)
             new)
  /\ (forall self : Spectrograph.t K8056.t InstrumentId ObsInstructions,
        fst (Spectrograph.set_obs_type mode self) <> Raise InvalidRelay).
Proof.
  intros Hm. split.
  - intros D HD self d cs Hdev.
    destruct (set_obs_type_plan (D := Logged D) (InstrumentId := InstrumentId)
                (ObsInstructions := ObsInstructions) mode Hm)
      as (mirror & led & thar & tung & _ & Hplan).
    rewrite Hplan.
    apply (apply_plan_logged_calls cs mirror led thar tung self).
    exists d, []. rewrite app_nil_r. split; [assumption|constructor].
  - intros self.
    destruct (set_obs_type_plan (D := K8056.t) (InstrumentId := InstrumentId)
                (ObsInstructions := ObsInstructions) mode Hm)
      as (mirror & led & thar & tung & _ & Hplan).
    rewrite Hplan. apply apply_plan_K8056_no_invalid_relay.
Qed.

Lemma mode_relays_come_from_port_table_witness :
  (exists (d' : K8056.t) (new : list Call),
      Spectrograph.device
        (snd (Spectrograph.set_obs_type "thar"
                (Spectrograph.mk (ObsInstructions := string)
                   (Some (mkLogged sample_driver []))
                   false 7 Spectrograph.initial_status_dictionary [])))
      = Some (mkLogged d' ([] ++ new))
      /\ Forall (fun c => In (call_relay c) (map snd PORTS) /\ 1 <= call_relay c <= 4)
           new)
  /\ fst (Spectrograph.set_obs_type "thar" (started false)) <> Raise InvalidRelay.
Proof.
  destruct (mode_relays_come_from_port_table
              (InstrumentId := Z) (ObsInstructions := string) "thar")
    as [Hcalls Hdriver].
  - right. right. right. reflexivity.
  - split.
    + apply (Hcalls K8056.t K8056_device _ sample_driver []). reflexivity.
    + apply Hdriver.
Defined.

(** One port switched on a logging K8056 driver whose delay is not
    negative: the call is logged, the frame goes out [repeat]+1 times. *)
Lemma switch_logged_K8056 {InstrumentId ObsInstructions : Type}
    (on : bool) (port k : Z) (w : Q) (tr : list K8056.Event) (cs : list Call)
    (sim : bool) (i : InstrumentId) (sd : Spectrograph.PortStatusMap)
    (out : list (Spectrograph.Emit InstrumentId ObsInstructions)) :
  1 <= port <= 9 -> (0 <= w)%Q ->
  switch on port
    (Spectrograph.mk (Some (mkLogged (K8056.mk k w tr) cs)) sim i sd out)
  = (Ok tt,
     Spectrograph.mk
       (Some (mkLogged
                (K8056.mk k w
                   (tr ++ burst (spec_frame_of (if on then Set_ port 1 else Clear port 1))
                            w (range_len (k + 1))))
                (cs ++ [if on then CallSet port else CallClear port])))
       sim i sd out).
Proof.
  intros Hr Hw. apply valid_relay_iff in Hr.
  unfold switch, Spectrograph.turn_on, Spectrograph.turn_off, Spectrograph.on_device.
  destruct on; cbn [Spectrograph.device dev_set dev_clear Logged_device K8056_device];
    unfold logged; cbn [inner calls].
  - pose proof (issue_accepted (Set_ port 1) (K8056.mk k w tr) Hr) as E.
    cbn [issue] in E. unfold K8056.default_address. rewrite E.
    rewrite process_outcome_ok
      by (try apply (spec_frame_of_bytes (Set_ port 1)); assumption).
    reflexivity.
  - pose proof (issue_accepted (Clear port 1) (K8056.mk k w tr) Hr) as E.
    cbn [issue] in E. unfold K8056.default_address. rewrite E.
    rewrite process_outcome_ok
      by (try apply (spec_frame_of_bytes (Clear port 1)); assumption).
    reflexivity.
Qed.

(** C6. On a live driver (observed through its call log) whose delay is
    not negative, the "dark" mode ends normally after exactly four calls,
    in table order: set on relay 1 (Mirror), then clear on 2, 3 and 4; each
    call puts its frame on the line [repeat]+1 times; and the status
    published is Mirror On, LED Off, ThAr Off, Tung Off. *)
Theorem dark_mode_sets_mirror_clears_rest {InstrumentId ObsInstructions : Type}
    (k : Z) (w : Q) (tr : list K8056.Event) (cs : list Call)
    (sim : bool) (i : InstrumentId) (sd : Spectrograph.PortStatusMap)
    (out : list (Spectrograph.Emit InstrumentId ObsInstructions)) :
  (0 <= w)%Q ->
  Spectrograph.set_obs_type "dark"
    (Spectrograph.mk (Some (mkLogged (K8056.mk k w tr) cs)) sim i sd out)
  = (Ok tt,
     Spectrograph.mk
       (Some (mkLogged
                (K8056.mk k w
                   ((((tr ++ burst [13; 1; 83; 49; 110] w (Z.to_nat (k + 1)))
                        ++ burst [13; 1; 67; 50; 125] w (Z.to_nat (k + 1)))
                       ++ burst [13; 1; 67; 51; 124] w (Z.to_nat (k + 1)))
                      ++ burst [13; 1; 67; 52; 123] w (Z.to_nat (k + 1))))
                ((((cs ++ [CallSet 1]) ++ [CallClear 2]) ++ [CallClear 3])
                   ++ [CallClear 4])))
       sim i sd
       (out ++
          [Spectrograph.mkEmit "update_status"
             (Spectrograph.StatusData i
                [ ("Mirror", [ ("value", "On"); ("color", "success") ]);
                  ("LED", [ ("value", "Off"); ("color", "warning") ]);
                  ("ThAr", [ ("value", "Off"); ("color", "warning") ]);
                  ("Tung", [ ("value", "Off"); ("color", "warning") ]) ]%string)])).
Proof.
  intros Hw.
  change (Spectrograph.set_obs_type "dark" ?s) with (apply_plan true false false false s).
  unfold apply_plan, port_plan. cbn [for_each]. unfold bind.
  rewrite switch_logged_K8056 by (lia || assumption).
  rewrite switch_logged_K8056 by (lia || assumption).
  rewrite switch_logged_K8056 by (lia || assumption).
  rewrite switch_logged_K8056 by (lia || assumption).
  reflexivity.
Qed.

Lemma dark_mode_sets_mirror_clears_rest_witness :
  Spectrograph.set_obs_type "dark"
    (Spectrograph.mk (ObsInstructions := string)
       (Some (mkLogged (K8056.mk 0 0 []) [])) false 7
       Spectrograph.initial_status_dictionary [])
  = (Ok tt,
     Spectrograph.mk
       (Some (mkLogged
                (K8056.mk 0 0
                   [K8056.Write [13; 1; 83; 49; 110]; K8056.Sleep 0;
                    K8056.Write [13; 1; 67; 50; 125]; K8056.Sleep 0;
                    K8056.Write [13; 1; 67; 51; 124]; K8056.Sleep 0;
                    K8056.Write [13; 1; 67; 52; 123]; K8056.Sleep 0])
                [CallSet 1; CallClear 2; CallClear 3; CallClear 4]))
       false 7 Spectrograph.initial_status_dictionary
       [Spectrograph.mkEmit "update_status"
          (Spectrograph.StatusData 7 (spec_vector true false false false))]).
Proof.
  refine (dark_mode_sets_mirror_clears_rest 0 0 [] [] false 7
            Spectrograph.initial_status_dictionary [] _).
  unfold Qle; simpl; lia.
Defined.

(** C5. Applying "dark" to a freshly built controller with a live driver
    ends normally and publishes the dark vector, yet [status_dictionary]
    still holds the vector of "object" it started with: the handler never
    stores the target vector. *)
Theorem status_dictionary_stale_after_dark :
  fst (Spectrograph.set_obs_type "dark" (started false)) = Ok tt
  /\ dict_get Spectrograph.OBSERVING_MODES "dark"
     = Some (spec_vector true false false false)
  /\ Spectrograph.sio (snd (Spectrograph.set_obs_type "dark" (started false)))
     = [Spectrograph.mkEmit "update_status"
          (Spectrograph.StatusData 7 (spec_vector true false false false))]
  /\ Spectrograph.status_dictionary
       (snd (Spectrograph.set_obs_type "dark" (started false)))
     = spec_vector false false false false
  /\ Spectrograph.status_dictionary
       (snd (Spectrograph.set_obs_type "dark" (started false)))
     <> spec_vector true false false false.
Proof.
  repeat split; try reflexivity.
  rewrite set_obs_type_keeps_status. discriminate.
Qed.

(** * Further properties of the driver *)

Lemma process_outcome_config (fr : list Z) (self : K8056.t) :
  K8056.repeat (snd (process_outcome fr self)) = K8056.repeat self
  /\ K8056.wait (snd (process_outcome fr self)) = K8056.wait self.
Proof.
  unfold process_outcome.
  destruct (range_len _); [now split|].
  destruct (forallb _ _); [destruct (Qle_bool _ _)|]; now split.
Qed.

Lemma Qle_bool_false (w : Q) : (w < 0)%Q -> Qle_bool 0 w = false.
Proof.
  intros Hw. apply not_true_iff_false. rewrite Qle_bool_iff.
  now apply Qlt_not_le.
Qed.

(** X1. What a command has put on the line when it returns or raises is
    always an initial part of its schedule, [repeat]+1 times "write the
    frame, sleep [wait]": nothing else is ever written, the port is never
    reopened, frames and sleeps alternate. A command that passes the relay
    check ends normally exactly when the whole schedule went out. *)
Theorem command_keeps_to_schedule (c : Command) (self : K8056.t) :
  exists new rest : list K8056.Event,
    K8056.trace (snd (issue c self)) = K8056.trace self ++ new
    /\ new ++ rest
       = burst (spec_frame_of c) (K8056.wait self) (range_len (K8056.repeat self + 1))
    /\ (accepted c = true -> (fst (issue c self) = Ok tt <-> rest = [])).
Proof.
  destruct (accepted c) eqn:Hc.
  - rewrite issue_accepted by exact Hc.
    pose proof (spec_frame_of_bytes c Hc) as Hb.
    unfold process_outcome. rewrite Hb.
    destruct (range_len (K8056.repeat self + 1)) as [|n].
    + exists [], []. cbn [snd fst]. rewrite app_nil_r. repeat split.
    + destruct (Qle_bool 0 (K8056.wait self)).
      * exists (burst (spec_frame_of c) (K8056.wait self) (S n)), [].
        cbn [snd fst K8056.trace]. rewrite app_nil_r. repeat split.
      * exists [K8056.Write (spec_frame_of c)],
          (K8056.Sleep (K8056.wait self) :: burst (spec_frame_of c) (K8056.wait self) n).
        cbn [snd fst K8056.trace]. repeat split; discriminate.
  - rewrite issue_rejected by exact Hc.
    exists [], (burst (spec_frame_of c) (K8056.wait self)
                  (range_len (K8056.repeat self + 1))).
    cbn [snd]. rewrite app_nil_r. repeat split; discriminate.
Qed.

(** X2. No command changes the configuration of the driver: [repeat] and
    [wait] after the call are those before it, however the call ends. *)
Theorem command_keeps_config (c : Command) (self : K8056.t) :
  K8056.repeat (snd (issue c self)) = K8056.repeat self
  /\ K8056.wait (snd (issue c self)) = K8056.wait self.
Proof.
  destruct (accepted c) eqn:Hc.
  - rewrite issue_accepted by exact Hc. apply process_outcome_config.
  - rewrite issue_rejected by exact Hc. now split.
Qed.

(** X3. With a negative repeat count the range of the loop is empty: a
    command that passes the relay check returns normally without writing
    or sleeping, and a relay index out of range is still refused. *)
Theorem negative_repeat_sends_nothing (c : Command) (self : K8056.t) :
  K8056.repeat self < 0 ->
  issue c self = if accepted c then (Ok tt, self) else (Raise InvalidRelay, self).
Proof.
  intros Hk. destruct (accepted c) eqn:Hc.
  - rewrite issue_accepted by exact Hc. unfold process_outcome, range_len.
    destruct (Z.to_nat (K8056.repeat self + 1)) eqn:En; [reflexivity|lia].
  - now apply issue_rejected.
Qed.

Lemma negative_repeat_sends_nothing_witness :
  issue EmergencyStop (K8056.mk (-1) 0 []) = (Ok tt, K8056.mk (-1) 0 []).
Proof.
  refine (negative_repeat_sends_nothing EmergencyStop (K8056.mk (-1) 0 []) _).
  simpl. lia.
Defined.

(** X4. With a negative delay and a repeat count >= 0, a command that
    passes the relay check writes its frame once, then [sleep] raises
    [ValueError]: the remaining repeats are never sent. *)
Theorem negative_wait_stops_after_first_frame
    (c : Command) (k : Z) (w : Q) (tr : list K8056.Event) :
  0 <= k -> (w < 0)%Q -> accepted c = true ->
  issue c (K8056.mk k w tr)
  = (Raise ValueError, K8056.mk k w (tr ++ [K8056.Write (spec_frame_of c)])).
Proof.
  intros Hk Hw Hc. rewrite issue_accepted by exact Hc.
  unfold process_outcome, range_len. cbn [K8056.repeat K8056.wait K8056.trace].
  rewrite (spec_frame_of_bytes c Hc), (Qle_bool_false w Hw).
  destruct (Z.to_nat (k + 1)) eqn:En; [lia|reflexivity].
Qed.

Lemma negative_wait_stops_after_first_frame_witness :
  issue (SendByte 255 1) (K8056.mk 3 (-1 # 2) [])
  = (Raise ValueError, K8056.mk 3 (-1 # 2) [K8056.Write [13; 1; 66; 255; 177]]).
Proof.
  refine (negative_wait_stops_after_first_frame (SendByte 255 1) 3 (-1 # 2) [] _ _ _).
  - lia.
  - reflexivity.
  - reflexivity.
Defined.

(** X5. Addresses and data bytes count modulo 256 only: adding a multiple
    of 256 to the address of any command, to the new address of
    [set_address] or to the value of [send_byte] changes nothing in what
    the call does. *)
Theorem arguments_count_modulo_256 (relay a v m : Z) (self : K8056.t) :
  K8056.set relay (a + 256 * m) self = K8056.set relay a self
  /\ K8056.clear relay (a + 256 * m) self = K8056.clear relay a self
  /\ K8056.toggle relay (a + 256 * m) self = K8056.toggle relay a self
  /\ K8056.set_address v (a + 256 * m) self = K8056.set_address v a self
  /\ K8056.set_address (v + 256 * m) a self = K8056.set_address v a self
  /\ K8056.send_byte v (a + 256 * m) self = K8056.send_byte v a self
  /\ K8056.send_byte (v + 256 * m) a self = K8056.send_byte v a self.
Proof.
  assert (Hm : forall x, Z.land (x + 256 * m) 255 = Z.land x 255).
  { intros x. rewrite !land_255, (Z.mul_comm 256 m). apply Z_mod_plus_full. }
  unfold K8056.set, K8056.clear, K8056.toggle, K8056.set_address, K8056.send_byte.
  rewrite !Hm. repeat split.
Qed.

(** X6. The bytes of every frame a command writes add up to a multiple of
    256: the last byte is the two's complement of the sum of the other
    four, start marker included. *)
Theorem written_frames_sum_to_zero (c : Command) (self : K8056.t) :
  exists new : list K8056.Event,
    K8056.trace (snd (issue c self)) = K8056.trace self ++ new
    /\ Forall (fun fr => byte_sum fr mod 256 = 0) (writes new).
Proof.
  destruct (accepted c) eqn:Hc.
  - rewrite issue_accepted by exact Hc.
    destruct (process_outcome_trace (spec_frame_of c) self) as (new & n & Htr & Hw & _).
    exists new. split; [assumption|]. rewrite Hw.
    apply Forall_forall. intros fr Hin. apply repeat_spec in Hin. subst fr.
    unfold spec_frame_of. destruct (spec_triple c) as [[i d] a].
    unfold spec_frame, byte_sum. cbn [fold_right].
    replace (13 + (a + (i + (d + ((243 - i - d - a) mod 256 + 0)))))
      with ((13 + a + i + d) + (243 - i - d - a) mod 256) by lia.
    rewrite Z.add_mod_idemp_r by lia.
    replace (13 + a + i + d + (243 - i - d - a)) with 256 by lia.
    reflexivity.
  - rewrite issue_rejected by exact Hc.
    exists []. cbn [snd]. rewrite app_nil_r. split; [reflexivity|constructor].
Qed.

Lemma spec_frame_of_inj (c1 c2 : Command) :
  normal c1 = true -> normal c2 = true ->
  spec_frame_of c1 = spec_frame_of c2 -> c1 = c2.
Proof.
  intros N1 N2 E.
  destruct c1, c2; unfold spec_frame_of, spec_triple, spec_frame in E;
    try reflexivity; try discriminate E; injection E; intros; try lia;
    cbn [normal] in N1, N2;
    rewrite ?andb_true_iff, ?is_byte_iff in N1, N2;
    rewrite ?Z.mod_small in * by lia;
    try reflexivity; f_equal; lia.
Qed.

(** X7. Frames tell commands apart: when two commands that pass the relay
    check, with arguments that are bytes, leave the same writes on the
    same driver (repeat count >= 0), they are the same command with the
    same arguments. *)
Theorem written_frames_identify_command (c1 c2 : Command) (self : K8056.t) :
  0 <= K8056.repeat self ->
  accepted c1 = true -> accepted c2 = true ->
  normal c1 = true -> normal c2 = true ->
  writes (K8056.trace (snd (issue c1 self)))
  = writes (K8056.trace (snd (issue c2 self))) ->
  c1 = c2.
Proof.
  intros Hk A1 A2 N1 N2 E.
  rewrite !issue_accepted in E by assumption.
  destruct (process_outcome_trace (spec_frame_of c1) self) as (new1 & n1 & T1 & W1 & P1).
  destruct (process_outcome_trace (spec_frame_of c2) self) as (new2 & n2 & T2 & W2 & P2).
  rewrite T1, T2, !writes_app, W1, W2 in E. apply app_inv_head in E.
  specialize (P1 (spec_frame_of_bytes c1 A1) Hk).
  specialize (P2 (spec_frame_of_bytes c2 A2) Hk).
  destruct n1 as [|n1]; [lia|]. destruct n2 as [|n2]; [lia|].
  cbn [List.repeat] in E. injection E as E _.
  now apply spec_frame_of_inj.
Qed.

Lemma written_frames_identify_command_witness :
  Toggle 4 2 = Toggle 4 2.
Proof.
  refine (written_frames_identify_command (Toggle 4 2) (Toggle 4 2) sample_driver
            _ _ _ _ _ _); reflexivity.
Defined.

(** X8. [_process] called with an instruction, data byte or address that
    is not in 0..255 raises [ValueError] when it builds the first frame,
    before anything is written (repeat count >= 0). *)
Theorem process_refuses_non_bytes (instruction byte address : Z) (self : K8056.t) :
  0 <= K8056.repeat self ->
  ~ (0 <= instruction < 256 /\ 0 <= byte < 256 /\ 0 <= address < 256) ->
  K8056._process instruction byte address self = (Raise ValueError, self).
Proof.
  intros Hk Hbad. rewrite process_run. unfold process_outcome, range_len.
  destruct (Z.to_nat (K8056.repeat self + 1)) eqn:En; [lia|].
  destruct (forallb K8056.is_byte (frame instruction byte address)) eqn:Hb;
    [|reflexivity].
  exfalso. apply Hbad. unfold frame in Hb. cbn [forallb] in Hb.
  rewrite !andb_true_iff, !is_byte_iff in Hb. lia.
Qed.

Lemma process_refuses_non_bytes_witness :
  K8056._process 83 49 256 sample_driver = (Raise ValueError, sample_driver).
Proof.
  refine (process_refuses_non_bytes 83 49 256 sample_driver _ _).
  - simpl. lia.
  - lia.
Defined.

(** * Further properties of the controller *)

Section HandlerFrame.

Context {D : Type} `{RelayDevice D} {InstrumentId ObsInstructions : Type}.

Implicit Types self s : Spectrograph.t D InstrumentId ObsInstructions.

Lemma untouched_refl self : untouched self self.
Proof. unfold untouched. tauto. Qed.

Lemma turn_on_untouched self (port : Z) :
  preserves (untouched self) (Spectrograph.turn_on port).
Proof.
  intros s Hs. unfold Spectrograph.turn_on, Spectrograph.on_device.
  destruct (Spectrograph.device s) as [d|] eqn:Ed; [|exact Hs].
  destruct (dev_set port d) as [r d']. unfold untouched in *.
  cbn [snd Spectrograph.with_device Spectrograph.simulation Spectrograph.id
         Spectrograph.status_dictionary Spectrograph.sio Spectrograph.device].
  rewrite Ed in Hs. intuition congruence.
Qed.

Lemma turn_off_untouched self (port : Z) :
  preserves (untouched self) (Spectrograph.turn_off port).
Proof.
  intros s Hs. unfold Spectrograph.turn_off, Spectrograph.on_device.
  destruct (Spectrograph.device s) as [d|] eqn:Ed; [|exact Hs].
  destruct (dev_clear port d) as [r d']. unfold untouched in *.
  cbn [snd Spectrograph.with_device Spectrograph.simulation Spectrograph.id
         Spectrograph.status_dictionary Spectrograph.sio Spectrograph.device].
  rewrite Ed in Hs. intuition congruence.
Qed.

(** The port loop of [set_obs_type], over any table of ports. *)
Lemma port_loop_untouched self (mode_ports : Spectrograph.PortStatusMap) :
  preserves (untouched self)
    (for_each (items mode_ports)
       (fun '(port_name, settings) =>
          status_val <- subscript settings "value" ;;
          port_num <- subscript PORTS port_name ;;
          if String.eqb status_val "On" then Spectrograph.turn_on port_num
          else Spectrograph.turn_off port_num)).
Proof.
  apply preserves_for_each. intros [port_name settings] _.
  apply preserves_bind; [apply preserves_subscript|intros status_val].
  apply preserves_bind; [apply preserves_subscript|intros port_num].
  destruct (String.eqb status_val "On");
    [apply turn_on_untouched|apply turn_off_untouched].
Qed.

Lemma set_obs_type_steps (mode : string) self :
  Spectrograph.set_obs_type mode self
  = match dict_get Spectrograph.OBSERVING_MODES mode with
    | None => (Raise (KeyError mode), self)
    | Some mode_ports =>
        match
          for_each (items mode_ports)
            (fun '(port_name, settings) =>
               status_val <- subscript settings "value" ;;
               port_num <- subscript PORTS port_name ;;
               if String.eqb status_val "On" then Spectrograph.turn_on port_num
               else Spectrograph.turn_off port_num) self
        with
        | (Ok _, s) =>
            Spectrograph.emit "update_status"
              (Spectrograph.StatusData (Spectrograph.id s) mode_ports) s
        | (Raise e, s) => (Raise e, s)
        end
    end.
Proof.
  unfold Spectrograph.set_obs_type, bind, subscript.
  destruct (dict_get Spectrograph.OBSERVING_MODES mode); reflexivity.
Qed.

(** X9. [set_obs_type] publishes the status exactly when every port
    command went through: if it ends normally, the mode is in the table
    and one "update_status" with the controller's id and the vector of the
    mode was appended to what was emitted; if it raises, whatever the
    device and whichever call failed, nothing was emitted. *)
Theorem status_published_iff_applied (mode : string) self :
  match fst (Spectrograph.set_obs_type mode self) with
  | Ok _ =>
      exists ports : Spectrograph.PortStatusMap,
        dict_get Spectrograph.OBSERVING_MODES mode = Some ports
        /\ Spectrograph.sio (snd (Spectrograph.set_obs_type mode self))
           = Spectrograph.sio self
             ++ [Spectrograph.mkEmit "update_status"
                   (Spectrograph.StatusData (Spectrograph.id self) ports)]
  | Raise _ =>
      Spectrograph.sio (snd (Spectrograph.set_obs_type mode self))
      = Spectrograph.sio self
  end.
Proof.
  rewrite set_obs_type_steps.
  destruct (dict_get Spectrograph.OBSERVING_MODES mode) as [ports|];
    [|reflexivity].
  pose proof (port_loop_untouched self ports self (untouched_refl self)) as Hs.
  destruct (for_each _ _ self) as [[[]|e] s1]; cbn [snd fst] in *.
  - destruct Hs as (_ & Hid & _ & Hsio & _).
    exists ports. split; [reflexivity|].
    unfold Spectrograph.emit. cbn [snd Spectrograph.sio].
    now rewrite Hid, Hsio.
  - now destruct Hs as (_ & _ & _ & Hsio & _).
Qed.

(** X17. Whatever the device and however they end, the two handlers
    leave the simulation flag, the id and the status dictionary as they
    were, never attach or detach the device, and only append to what was
    emitted. *)
Theorem handlers_keep_identity (mode : string) (obs : ObsInstructions) self :
  (let s := snd (Spectrograph.set_obs_type mode self) in
   Spectrograph.simulation s = Spectrograph.simulation self
   /\ Spectrograph.id s = Spectrograph.id self
   /\ Spectrograph.status_dictionary s = Spectrograph.status_dictionary self
   /\ (Spectrograph.device s = None <-> Spectrograph.device self = None)
   /\ exists new, Spectrograph.sio s = Spectrograph.sio self ++ new)
  /\ (let s := snd (Spectrograph.prepare_observation mode obs self) in
      Spectrograph.simulation s = Spectrograph.simulation self
      /\ Spectrograph.id s = Spectrograph.id self
      /\ Spectrograph.status_dictionary s = Spectrograph.status_dictionary self
      /\ (Spectrograph.device s = None <-> Spectrograph.device self = None)
      /\ exists new, Spectrograph.sio s = Spectrograph.sio self ++ new).
Proof.
  assert (Hset : let s := snd (Spectrograph.set_obs_type mode self) in
                 Spectrograph.simulation s = Spectrograph.simulation self
                 /\ Spectrograph.id s = Spectrograph.id self
                 /\ Spectrograph.status_dictionary s
                    = Spectrograph.status_dictionary self
                 /\ (Spectrograph.device s = None
                     <-> Spectrograph.device self = None)
                 /\ exists new, Spectrograph.sio s = Spectrograph.sio self ++ new).
  { rewrite set_obs_type_steps.
    destruct (dict_get Spectrograph.OBSERVING_MODES mode) as [ports|].
    - pose proof (port_loop_untouched self ports self (untouched_refl self)) as Hs.
      destruct (for_each _ _ self) as [[[]|e] s1]; cbn [snd] in *;
        destruct Hs as (Hsim & Hid & Hsd & Hsio & Hdev).
      + unfold Spectrograph.emit.
        cbn [snd Spectrograph.simulation Spectrograph.id Spectrograph.sio
               Spectrograph.status_dictionary Spectrograph.device].
        repeat split; try tauto. rewrite Hsio. now eexists.
      + repeat split; try tauto. exists []. now rewrite app_nil_r.
    - cbn [snd raise]. repeat split; try tauto. exists []. now rewrite app_nil_r. }
  split; [exact Hset|].
  unfold Spectrograph.prepare_observation, bind.
  destruct (Spectrograph.set_obs_type mode self) as [[[]|e] s1]; cbn [snd] in *;
    [|exact Hset].
  destruct Hset as (Hsim & Hid & Hsd & Hdev & new & Hsio).
  unfold Spectrograph.emit.
  cbn [snd Spectrograph.simulation Spectrograph.id Spectrograph.sio
         Spectrograph.status_dictionary Spectrograph.device].
  repeat split; try tauto. rewrite Hsio, <- app_assoc. now eexists.
Qed.

(** X13. [prepare_observation] with a mode name that is not in the table
    raises the key error of the lookup and announces nothing: the
    controller is exactly as it was, so no "spectrograph_changed_ports"
    goes out for an observation whose ports were not set. *)
Theorem prepare_observation_unknown_mode (mode : string) (obs : ObsInstructions) self :
  ~ recognized mode ->
  Spectrograph.prepare_observation mode obs self = (Raise (KeyError mode), self).
Proof.
  intros Hn.
  unfold Spectrograph.prepare_observation, Spectrograph.set_obs_type, bind, subscript.
  now rewrite (unrecognized_lookup mode Hn).
Qed.

End HandlerFrame.

(** ** The controller on the K8056 driver *)

Lemma recognized_dec (mode : string) : recognized mode \/ ~ recognized mode.
Proof.
  unfold recognized.
  destruct (String.eqb_spec mode "object"); [tauto|].
  destruct (String.eqb_spec mode "dark"); [tauto|].
  destruct (String.eqb_spec mode "flat"); [tauto|].
  destruct (String.eqb_spec mode "thar"); tauto.
Qed.

Lemma port_frame_spec (on : bool) (port : Z) :
  port_frame on port = spec_frame_of (if on then Set_ port 1 else Clear port 1).
Proof. destruct on; reflexivity. Qed.

Section OnDriver.

Context {InstrumentId ObsInstructions : Type}.

Implicit Types self s : Spectrograph.t K8056.t InstrumentId ObsInstructions.
Implicit Types (sim : bool) (i : InstrumentId) (sd : Spectrograph.PortStatusMap).
Implicit Types out : list (Spectrograph.Emit InstrumentId ObsInstructions).

Lemma switch_K8056_run (on : bool) (port k : Z) (w : Q) (tr : list K8056.Event)
    sim i sd out :
  1 <= port <= 9 -> (0 <= w)%Q ->
  switch on port (Spectrograph.mk (Some (K8056.mk k w tr)) sim i sd out)
  = (Ok tt,
     Spectrograph.mk
       (Some (K8056.mk k w (tr ++ burst (port_frame on port) w (range_len (k + 1)))))
       sim i sd out).
Proof.
  intros Hr Hw. apply valid_relay_iff in Hr. rewrite port_frame_spec.
  unfold switch, Spectrograph.turn_on, Spectrograph.turn_off, Spectrograph.on_device.
  destruct on; cbn [Spectrograph.device dev_set dev_clear K8056_device];
    unfold K8056.default_address.
  - pose proof (issue_accepted (Set_ port 1) (K8056.mk k w tr) Hr) as E.
    cbn [issue] in E. rewrite E.
    rewrite process_outcome_ok
      by (try apply (spec_frame_of_bytes (Set_ port 1)); assumption).
    reflexivity.
  - pose proof (issue_accepted (Clear port 1) (K8056.mk k w tr) Hr) as E.
    cbn [issue] in E. rewrite E.
    rewrite process_outcome_ok
      by (try apply (spec_frame_of_bytes (Clear port 1)); assumption).
    reflexivity.
Qed.

Lemma apply_plan_live (mirror led thar tung : bool) (k : Z) (w : Q)
    (tr : list K8056.Event) sim i sd out :
  (0 <= w)%Q ->
  apply_plan mirror led thar tung
    (Spectrograph.mk (Some (K8056.mk k w tr)) sim i sd out)
  = (Ok tt,
     Spectrograph.mk
       (Some (K8056.mk k w
                (tr ++ mode_events mirror led thar tung w (range_len (k + 1)))))
       sim i sd
       (out ++ [Spectrograph.mkEmit "update_status"
                  (Spectrograph.StatusData i (spec_vector mirror led thar tung))])).
Proof.
  intros Hw. unfold apply_plan, port_plan. cbn [for_each]. unfold bind.
  rewrite switch_K8056_run by (lia || assumption).
  rewrite switch_K8056_run by (lia || assumption).
  rewrite switch_K8056_run by (lia || assumption).
  rewrite switch_K8056_run by (lia || assumption).
  unfold mode_events, ret, Spectrograph.emit.
  cbn [Spectrograph.device Spectrograph.simulation Spectrograph.id
         Spectrograph.status_dictionary Spectrograph.sio].
  now rewrite <- !app_assoc.
Qed.

Lemma apply_plan_simulated (mirror led thar tung : bool) sim i sd out :
  apply_plan (D := K8056.t) mirror led thar tung (Spectrograph.mk None sim i sd out)
  = (Ok tt,
     Spectrograph.mk None sim i sd
       (out ++ [Spectrograph.mkEmit "update_status"
                  (Spectrograph.StatusData i (spec_vector mirror led thar tung))])).
Proof. destruct mirror, led, thar, tung; reflexivity. Qed.

(** X10. [turn_on] and [turn_off] do no checking of their own: with a
    relay index outside 1..9 they raise the driver's invalid-relay
    exception on a live driver and end normally when no device is
    attached; either way the controller is exactly as it was. *)
Theorem turn_on_off_invalid_relay (port : Z) self :
  port < 1 \/ 9 < port ->
  Spectrograph.turn_on port self
  = (match Spectrograph.device self with
     | Some _ => Raise InvalidRelay
     | None => Ok tt
     end, self)
  /\ Spectrograph.turn_off port self
     = (match Spectrograph.device self with
        | Some _ => Raise InvalidRelay
        | None => Ok tt
        end, self).
Proof.
  intros Hr. apply valid_relay_false_iff in Hr.
  destruct self as [[d|] sim i sd out]; [|split; reflexivity].
  unfold Spectrograph.turn_on, Spectrograph.turn_off, Spectrograph.on_device.
  cbn [Spectrograph.device dev_set dev_clear K8056_device].
  pose proof (issue_rejected (Set_ port K8056.default_address) d Hr) as Es.
  pose proof (issue_rejected (Clear port K8056.default_address) d Hr) as Ec.
  cbn [issue] in Es, Ec. rewrite Es, Ec. split; reflexivity.
Qed.

(** X11. On a live driver whose delay is not negative, every recognized
    mode ends normally: the four ports are commanded in table order,
    relay 1 to 4, with a [set] frame where the mode has On and a [clear]
    frame where it has Off, each frame [repeat]+1 times; the driver keeps
    its configuration and the vector of the mode is published. *)
Theorem mode_applied_on_live_driver (mode : string) (k : Z) (w : Q)
    (tr : list K8056.Event) sim i sd out :
  recognized mode -> (0 <= w)%Q ->
  exists mirror led thar tung : bool,
    dict_get Spectrograph.OBSERVING_MODES mode = Some (spec_vector mirror led thar tung)
    /\ Spectrograph.set_obs_type mode
         (Spectrograph.mk (Some (K8056.mk k w tr)) sim i sd out)
       = (Ok tt,
          Spectrograph.mk
            (Some (K8056.mk k w
                     (tr ++ mode_events mirror led thar tung w (Z.to_nat (k + 1)))))
            sim i sd
            (out ++ [Spectrograph.mkEmit "update_status"
                       (Spectrograph.StatusData i
                          (spec_vector mirror led thar tung))])).
Proof.
  intros Hm Hw.
  destruct (set_obs_type_plan (D := K8056.t) (InstrumentId := InstrumentId)
              (ObsInstructions := ObsInstructions) mode Hm)
    as (mirror & led & thar & tung & Hports & Hplan).
  exists mirror, led, thar, tung. split; [assumption|].
  rewrite Hplan. now apply apply_plan_live.
Qed.

(** X12. A mode is applied without looking at what was applied before:
    after two recognized modes in a row on a live driver (delay >= 0) the
    line holds the full frames of the first followed by the full frames of
    the second, also when the two modes are the same, and both status
    updates were emitted. *)
Theorem modes_are_applied_unconditionally (mode1 mode2 : string) (k : Z) (w : Q)
    (tr : list K8056.Event) sim i sd out :
  recognized mode1 -> recognized mode2 -> (0 <= w)%Q ->
  exists m1 l1 t1 u1 m2 l2 t2 u2 : bool,
    dict_get Spectrograph.OBSERVING_MODES mode1 = Some (spec_vector m1 l1 t1 u1)
    /\ dict_get Spectrograph.OBSERVING_MODES mode2 = Some (spec_vector m2 l2 t2 u2)
    /\ Spectrograph.set_obs_type mode2
         (snd (Spectrograph.set_obs_type mode1
                 (Spectrograph.mk (Some (K8056.mk k w tr)) sim i sd out)))
       = (Ok tt,
          Spectrograph.mk
            (Some (K8056.mk k w
                     (tr ++ mode_events m1 l1 t1 u1 w (Z.to_nat (k + 1))
                         ++ mode_events m2 l2 t2 u2 w (Z.to_nat (k + 1)))))
            sim i sd
            (out ++ [Spectrograph.mkEmit "update_status"
                       (Spectrograph.StatusData i (spec_vector m1 l1 t1 u1));
                     Spectrograph.mkEmit "update_status"
                       (Spectrograph.StatusData i (spec_vector m2 l2 t2 u2))])).
Proof.
  intros H1 H2 Hw.
  destruct (set_obs_type_plan (D := K8056.t) (InstrumentId := InstrumentId)
              (ObsInstructions := ObsInstructions) mode1 H1)
    as (m1 & l1 & t1 & u1 & Hports1 & Hplan1).
  destruct (set_obs_type_plan (D := K8056.t) (InstrumentId := InstrumentId)
              (ObsInstructions := ObsInstructions) mode2 H2)
    as (m2 & l2 & t2 & u2 & Hports2 & Hplan2).
  exists m1, l1, t1, u1, m2, l2, t2, u2. split; [assumption|]. split; [assumption|].
  rewrite Hplan1, Hplan2, apply_plan_live by assumption. cbn [snd].
  rewrite apply_plan_live by assumption.
  now rewrite <- !app_assoc.
Qed.

End OnDriver.

(** ** Controllers that exist *)

Section Reachable.

Context {InstrumentId ObsInstructions : Type}.

Implicit Types self s : Spectrograph.t K8056.t InstrumentId ObsInstructions.

Lemma mode_events_once_controller (mirror led thar tung : bool) :
  Forall controller_event (mode_events mirror led thar tung 0 1).
Proof.
  assert (Hf : forall on port, 1 <= port <= 4 ->
                 controller_event (K8056.Write (port_frame on port))).
  { intros on port Hp. right. exists (port_frame on port). split; [|reflexivity].
    now exists on, port. }
  assert (Hs : controller_event (K8056.Sleep 0)) by now left.
  unfold mode_events, burst. cbn [List.repeat List.concat app].
  repeat (constructor; [first [exact Hs | apply Hf; lia]|]). constructor.
Qed.

Lemma init_well_kept (device : string) (simulator : bool) (self_id : InstrumentId) :
  well_kept (Spectrograph.__init__ (ObsInstructions := ObsInstructions)
               device simulator self_id).
Proof.
  unfold well_kept, Spectrograph.__init__.
  cbn [Spectrograph.simulation Spectrograph.device Spectrograph.status_dictionary].
  destruct simulator.
  - repeat split.
  - split; [split; discriminate|]. split; [reflexivity|].
    cbn [K8056.__init__ K8056.repeat K8056.wait K8056.trace].
    repeat split. exists device, []. split; [reflexivity|constructor].
Qed.

Lemma set_obs_type_well_kept (mode : string) s :
  well_kept s -> well_kept (snd (Spectrograph.set_obs_type mode s)).
Proof.
  intros Hs.
  destruct (recognized_dec mode) as [Hm|Hm].
  - destruct (set_obs_type_plan (D := K8056.t) (InstrumentId := InstrumentId)
                (ObsInstructions := ObsInstructions) mode Hm)
      as (mirror & led & thar & tung & _ & Hplan).
    rewrite Hplan.
    destruct s as [[[k w tr]|] sim i sd out].
    + destruct Hs as (Hsim & Hsd & Hk & Hw & path & rest & Htr & Hrest).
      cbn [K8056.repeat K8056.wait K8056.trace] in Hk, Hw, Htr. subst k w tr.
      rewrite apply_plan_live by (unfold Qle; simpl; lia).
      change (range_len (0 + 1)) with 1%nat.
      unfold well_kept.
      cbn [snd Spectrograph.simulation Spectrograph.device
             Spectrograph.status_dictionary K8056.repeat K8056.wait K8056.trace]
        in *.
      split; [split; intros E; [apply Hsim in E|]; discriminate E|].
      split; [exact Hsd|]. repeat split.
      exists path, (rest ++ mode_events mirror led thar tung 0 1).
      split; [reflexivity|].
      apply Forall_app. split; [assumption|apply mode_events_once_controller].
    + rewrite apply_plan_simulated. exact Hs.
  - rewrite set_obs_type_steps, (unrecognized_lookup mode Hm). exact Hs.
Qed.

Lemma prepare_observation_well_kept (mode : string) (obs : ObsInstructions) s :
  well_kept s -> well_kept (snd (Spectrograph.prepare_observation mode obs s)).
Proof.
  intros Hs. apply (set_obs_type_well_kept mode) in Hs.
  unfold Spectrograph.prepare_observation, bind.
  destruct (Spectrograph.set_obs_type mode s) as [[[]|e] s1]; cbn [snd] in *;
    exact Hs.
Qed.

Lemma reachable_well_kept s : reachable s -> well_kept s.
Proof.
  induction 1 as [device simulator self_id|mode s _ IH|mode obs s _ IH].
  - apply init_well_kept.
  - now apply set_obs_type_well_kept.
  - now apply prepare_observation_well_kept.
Qed.

(** X14. In every controller that exists (built by the constructor, then
    driven by the handlers, whether they ended normally or not): the
    simulation flag is set exactly when no device is attached; the status
    dictionary is still the vector of "object"; and an attached driver has
    repeat count 0 and delay 0, with a history that starts with the port
    opened at 2400 baud and the settling sleep of a tenth of a second, the
    port never being opened again. *)
Theorem constructor_invariant s :
  reachable s ->
  (Spectrograph.simulation s = true <-> Spectrograph.device s = None)
  /\ Spectrograph.status_dictionary s = Spectrograph.initial_status_dictionary
  /\ forall d : K8056.t,
       Spectrograph.device s = Some d ->
       K8056.repeat d = 0 /\ K8056.wait d = 0%Q
       /\ exists (path : string) (rest : list K8056.Event),
            K8056.trace d = K8056.Open path 2400 :: K8056.Sleep (1 # 10) :: rest
            /\ Forall (fun e => forall p b, e <> K8056.Open p b) rest.
Proof.
  intros Hr. apply reachable_well_kept in Hr.
  destruct Hr as (Hsim & Hsd & Hdev). split; [exact Hsim|]. split; [exact Hsd|].
  intros d Hd. rewrite Hd in Hdev.
  destruct Hdev as (Hk & Hw & path & rest & Htr & Hrest).
  split; [exact Hk|]. split; [exact Hw|]. exists path, rest. split; [exact Htr|].
  eapply Forall_impl; [|exact Hrest].
  intros e [He|(fr & _ & He)] p b; subst e; discriminate.
Qed.

(** X15. On a controller that exists, a recognized mode never fails:
    [set_obs_type] and [prepare_observation] end normally, and the line
    receives exactly four frames, one per port in table order (none when
    no device is attached). *)
Theorem existing_controller_applies_modes (mode : string) (obs : ObsInstructions) s :
  reachable s -> recognized mode ->
  fst (Spectrograph.set_obs_type mode s) = Ok tt
  /\ fst (Spectrograph.prepare_observation mode obs s) = Ok tt
  /\ exists mirror led thar tung : bool,
       dict_get Spectrograph.OBSERVING_MODES mode
       = Some (spec_vector mirror led thar tung)
       /\ writes (line (snd (Spectrograph.set_obs_type mode s)))
          = writes (line s)
            ++ match Spectrograph.device s with
               | Some _ => [port_frame mirror 1; port_frame led 2;
                            port_frame thar 3; port_frame tung 4]
               | None => []
               end.
Proof.
  intros Hr Hm. apply reachable_well_kept in Hr.
  destruct (set_obs_type_plan (D := K8056.t) (InstrumentId := InstrumentId)
              (ObsInstructions := ObsInstructions) mode Hm)
    as (mirror & led & thar & tung & Hports & Hplan).
  unfold Spectrograph.prepare_observation, bind. rewrite Hplan.
  destruct s as [[[k w tr]|] sim i sd out].
  - destruct Hr as (_ & _ & Hk & Hw & _).
    cbn [K8056.repeat K8056.wait] in Hk, Hw. subst k w.
    rewrite apply_plan_live by (unfold Qle; simpl; lia).
    change (range_len (0 + 1)) with 1%nat.
    split; [reflexivity|]. split; [reflexivity|].
    exists mirror, led, thar, tung. split; [assumption|].
    unfold line. cbn [snd Spectrograph.device K8056.trace].
    rewrite writes_app. reflexivity.
  - rewrite apply_plan_simulated.
    split; [reflexivity|]. split; [reflexivity|].
    exists mirror, led, thar, tung. split; [assumption|]. reflexivity.
Qed.

(** X16. Every frame that a controller has ever written to its line is a
    [set] or a [clear] frame for one of the relays 1..4 of card 1: the
    controller never toggles, never touches relays 5 to 8 or all relays at
    once, never changes an address and never addresses another card. *)
Theorem controller_writes_port_frames_only s :
  reachable s ->
  Forall (fun fr : list Z =>
            exists (on : bool) (port : Z),
              1 <= port <= 4
              /\ fr = [13; 1; if on then 83 else 67; port + 48;
                       (243 - (if on then 83 else 67) - (port + 48) - 1) mod 256])
    (writes (line s)).
Proof.
  intros Hr. apply reachable_well_kept in Hr.
  destruct Hr as (_ & _ & Hdev). unfold line.
  destruct (Spectrograph.device s) as [d|]; [|constructor].
  destruct Hdev as (_ & _ & path & rest & Htr & Hrest). rewrite Htr.
  change (writes (K8056.Open path 2400 :: K8056.Sleep (1 # 10) :: rest))
    with (writes rest).
  clear Htr. induction Hrest as [|e rest He _ IH]; [constructor|].
  destruct He as [He|(fr & (on & port & Hp & Hfr) & He)]; subst e.
  - exact IH.
  - change (writes (K8056.Write fr :: rest)) with (fr :: writes rest).
    constructor; [|exact IH].
    exists on, port. split; [assumption|]. subst fr. now destruct on.
Qed.

End Reachable.

(** ** Instances on the sample objects *)

Lemma turn_on_off_invalid_relay_witness :
  Spectrograph.turn_on 0 (started false) = (Raise InvalidRelay, started false)
  /\ Spectrograph.turn_off 0 (started false) = (Raise InvalidRelay, started false).
Proof.
  refine (turn_on_off_invalid_relay 0 (started false) _). lia.
Defined.

Lemma prepare_observation_unknown_mode_witness :
  Spectrograph.prepare_observation "bias" "10 x 60 s"%string (started false)
  = (Raise (KeyError "bias"), started false).
Proof.
  refine (prepare_observation_unknown_mode "bias" "10 x 60 s"%string (started false) _).
  intros [E|[E|[E|E]]]; discriminate E.
Defined.

Lemma mode_applied_on_live_driver_witness :
  exists mirror led thar tung : bool,
    dict_get Spectrograph.OBSERVING_MODES "flat"
    = Some (spec_vector mirror led thar tung)
    /\ Spectrograph.set_obs_type "flat"
         (Spectrograph.mk (ObsInstructions := string)
            (Some (K8056.mk 1 0 [])) false 7 Spectrograph.initial_status_dictionary [])
       = (Ok tt,
          Spectrograph.mk
            (Some (K8056.mk 1 0
                     ([] ++ mode_events mirror led thar tung 0 (Z.to_nat (1 + 1)))))
            false 7 Spectrograph.initial_status_dictionary
            ([] ++ [Spectrograph.mkEmit "update_status"
                      (Spectrograph.StatusData 7
                         (spec_vector mirror led thar tung))])).
Proof.
  refine (mode_applied_on_live_driver "flat" 1 0 [] false 7
            Spectrograph.initial_status_dictionary [] _ _).
  - right. right. left. reflexivity.
  - unfold Qle; simpl; lia.
Defined.

Lemma modes_are_applied_unconditionally_witness :
  exists m1 l1 t1 u1 m2 l2 t2 u2 : bool,
    dict_get Spectrograph.OBSERVING_MODES "thar" = Some (spec_vector m1 l1 t1 u1)
    /\ dict_get Spectrograph.OBSERVING_MODES "thar" = Some (spec_vector m2 l2 t2 u2)
    /\ Spectrograph.set_obs_type "thar"
         (snd (Spectrograph.set_obs_type "thar"
                 (Spectrograph.mk (ObsInstructions := string)
                    (Some (K8056.mk 0 0 [])) false 7
                    Spectrograph.initial_status_dictionary [])))
       = (Ok tt,
          Spectrograph.mk
            (Some (K8056.mk 0 0
                     ([] ++ mode_events m1 l1 t1 u1 0 (Z.to_nat (0 + 1))
                         ++ mode_events m2 l2 t2 u2 0 (Z.to_nat (0 + 1)))))
            false 7 Spectrograph.initial_status_dictionary
            ([] ++ [Spectrograph.mkEmit "update_status"
                      (Spectrograph.StatusData 7 (spec_vector m1 l1 t1 u1));
                    Spectrograph.mkEmit "update_status"
                      (Spectrograph.StatusData 7 (spec_vector m2 l2 t2 u2))])).
Proof.
  refine (modes_are_applied_unconditionally "thar" "thar" 0 0 [] false 7
            Spectrograph.initial_status_dictionary [] _ _ _).
  - right. right. right. reflexivity.
  - right. right. right. reflexivity.
  - unfold Qle; simpl; lia.
Defined.

Lemma constructor_invariant_witness :
  (Spectrograph.simulation
     (snd (Spectrograph.set_obs_type "dark" (started false))) = true
   <-> Spectrograph.device
         (snd (Spectrograph.set_obs_type "dark" (started false))) = None)
  /\ Spectrograph.status_dictionary
       (snd (Spectrograph.set_obs_type "dark" (started false)))
     = Spectrograph.initial_status_dictionary
  /\ forall d : K8056.t,
       Spectrograph.device (snd (Spectrograph.set_obs_type "dark" (started false)))
       = Some d ->
       K8056.repeat d = 0 /\ K8056.wait d = 0%Q
       /\ exists (path : string) (rest : list K8056.Event),
            K8056.trace d = K8056.Open path 2400 :: K8056.Sleep (1 # 10) :: rest
            /\ Forall (fun e => forall p b, e <> K8056.Open p b) rest.
Proof.
  refine (constructor_invariant
            (snd (Spectrograph.set_obs_type "dark" (started false))) _).
  apply reach_set_obs_type. apply reach_init.
Defined.

Lemma existing_controller_applies_modes_witness :
  fst (Spectrograph.set_obs_type "object"
         (snd (Spectrograph.prepare_observation "flat" "plan"%string (started false))))
  = Ok tt.
Proof.
  refine (proj1 (existing_controller_applies_modes "object" "plan"%string
                   (snd (Spectrograph.prepare_observation "flat" "plan"%string
                           (started false))) _ _)).
  - apply reach_prepare_observation. apply reach_init.
  - left. reflexivity.
Defined.

Lemma controller_writes_port_frames_only_witness :
  Forall (fun fr : list Z =>
            exists (on : bool) (port : Z),
              1 <= port <= 4
              /\ fr = [13; 1; if on then 83 else 67; port + 48;
                       (243 - (if on then 83 else 67) - (port + 48) - 1) mod 256])
    (writes (line (snd (Spectrograph.set_obs_type "thar" (started false))))).
Proof.
  refine (controller_writes_port_frames_only
            (snd (Spectrograph.set_obs_type "thar" (started false))) _).
  apply reach_set_obs_type. apply reach_init.
Defined.
